(** * patch_workflow_use_external_js: a shallow embedding

    The script [scripts/migrate/patch_workflow_use_external_js.py] rewrites
    an exported n8n workflow document so that every Code node whose id names
    an externalised JavaScript file loads that file through a fixed wrapper.

    The embedding follows the script top to bottom:
    - JSON values as [json.load] builds them (dicts keep insertion order);
    - the dict operations the script uses ([get], [setdefault], item
      assignment), truthiness and hashability of Python values;
    - the regular expression of the mapping builder and the mapping itself
      (a [gmap] from node id to file name);
    - the patch loop, which threads the two global counters and may raise;
    - the whole program over an explicit file-system oracle, with the trace
      of the effects it performs. *)

From Stdlib Require Import Ascii String NArith ZArith Floats.SpecFloat.
From stdpp Require Import base option list strings gmap pretty.

Local Open Scope string_scope.
Local Open Scope list_scope.

(** ** JSON values, as [json.load] returns them *)

(** [int] literals become unbounded integers, every other number a float;
    objects become dicts, whose items stay in insertion order. *)
#[warnings="-register-all"]
Inductive json : Type :=
| JNull
| JBool (b : bool)
| JInt (z : Z)
| JFloat (f : spec_float)
| JStr (s : string)
| JArr (items : list json)
| JObj (fields : list (string * json)).

Abbreviation dict := (list (string * json)).

(** ** Python dict operations *)

(** [d.get(k)] without a default, as an option: the first item named [k]. *)
Fixpoint dict_get (k : string) (d : dict) : option json :=
  match d with
  | [] => None
  | (k', v) :: rest => if String.eqb k' k then Some v else dict_get k rest
  end.

(** [d[k] = v]: an existing key keeps its place, a new key goes last. *)
Fixpoint dict_set (k : string) (v : json) (d : dict) : dict :=
  match d with
  | [] => [(k, v)]
  | (k', v') :: rest =>
      if String.eqb k' k then (k, v) :: rest else (k', v') :: dict_set k v rest
  end.

(** [d.get(k)]: Python's [None] (JSON [null]) when the key is absent. *)
Definition py_get (k : string) (d : dict) : json :=
  default JNull (dict_get k d).

(** Truth value of a Python object ([not x] is its negation). *)
Definition truthy (v : json) : bool :=
  match v with
  | JNull => false
  | JBool b => b
  | JInt z => negb (Z.eqb z 0)
  | JFloat (S754_zero _) => false
  | JFloat _ => true
  | JStr s => negb (String.eqb s "")
  | JArr l => negb (bool_decide (l = []))
  | JObj d => negb (bool_decide (d = []))
  end.

(** ** Exceptions and results *)

Inductive exn : Type :=
| SystemExit (code : Z)
| AttributeError
| TypeError
| OSError
| JSONDecodeError.

Inductive result (A : Type) : Type :=
| Ok (a : A)
| Raise (e : exn).
Arguments Ok {A} a.
Arguments Raise {A} e.

(** ** A state-and-exception monad

    The script keeps its state in module globals and lets exceptions
    propagate; [M S A] threads a state [S] and stops at the first raise. *)
Definition M (S A : Type) : Type := S -> result A * S.

#[global] Instance M_ret {S} : MRet (M S) := fun A a s => (Ok a, s).
#[global] Instance M_bind {S} : MBind (M S) := fun A B f c s =>
  match c s with
  | (Ok a, s') => f a s'
  | (Raise e, s') => (Raise e, s')
  end.

Definition raise {S A} (e : exn) : M S A := fun s => (Raise e, s).
Definition modify {S} (f : S -> S) : M S unit := fun s => (Ok tt, f s).

(** [for x in xs: x = body(x)], collecting the rewritten items in order. *)
Fixpoint for_each {S A B} (body : A -> M S B) (xs : list A) : M S (list B) :=
  match xs with
  | [] => mret []
  | x :: rest => y ← body x; ys ← for_each body rest; mret (y :: ys)
  end.

(** ** The generated wrapper (lines 54 to 58 of the script)

    Three adjacent f-strings; [{{] and [}}] are literal braces. *)
Definition wrapper (workflow_slug fn : string) : string :=
  ("try{const fn=require('/data/js/workflows/" +:+ workflow_slug +:+ "/" +:+ fn +:+ "');")
  +:+ "return await fn({$input,$json,$items,$node,$env,helpers});}"
  +:+ ("catch(e){e.message=`[extjs:" +:+ workflow_slug +:+ "/" +:+ fn +:+ "] ${e.message}`;throw e;}").

(** ** The patch loop (lines 37 to 60) *)

(** The two module globals [total_patched] and [total_skipped]. *)
Record counters : Type := Counters { total_patched : nat; total_skipped : nat }.

Definition incr_skipped : M counters unit :=
  modify (fun c => Counters (total_patched c) (total_skipped c + 1)).
Definition incr_patched : M counters unit :=
  modify (fun c => Counters (total_patched c + 1) (total_skipped c)).

Definition code_node_type : string := "n8n-nodes-base.code".

(** [n.get("type") != "n8n-nodes-base.code"], negated. *)
Definition is_code_type (d : dict) : bool :=
  match py_get "type" d with
  | JStr s => String.eqb s code_node_type
  | _ => false
  end.

(** [mapping.get(nid)]: the keys of [mapping] are strings, so no other
    hashable value is found; lists and dicts are unhashable. *)
Definition mapping_get {S} (mapping : gmap string string) (nid : json)
  : M S (option string) :=
  match nid with
  | JStr s => mret (mapping !! s)
  | JArr _ | JObj _ => raise TypeError
  | _ => mret None
  end.

(** [d.setdefault(k, v)]: the value found, or [v] after inserting it;
    paired with the dict afterwards. *)
Definition dict_setdefault (k : string) (v : json) (d : dict) : json * dict :=
  match dict_get k d with
  | Some x => (x, d)
  | None => (v, dict_set k v d)
  end.

(** [n.setdefault("parameters", {})["jsCode"] = wrapper]: the object
    [setdefault] returns is the one stored in [n], so assigning into it
    updates [n]; only a dict supports assignment to a string key. *)
Definition set_jsCode {S} (w : string) (d : dict) : M S dict :=
  let '(ps, d1) := dict_setdefault "parameters" (JObj []) d in
  match ps with
  | JObj p => mret (dict_set "parameters" (JObj (dict_set "jsCode" (JStr w) p)) d1)
  | _ => raise TypeError
  end.

(** The body of [for n in nodes]; the result is the node after the body. *)
Definition patch_node (mapping : gmap string string) (workflow_slug : string)
    (n : json) : M counters json :=
  match n with
  | JObj d =>
      if negb (is_code_type d) then mret n
      else
        let nid := py_get "id" d in
        if negb (truthy nid) then incr_skipped;; mret n
        else
          fn ← mapping_get mapping nid;
          match fn with
          | None => incr_skipped;; mret n
          | Some fn =>
              if String.eqb fn "" then incr_skipped;; mret n
              else
                d' ← set_jsCode (wrapper workflow_slug fn) d;
                incr_patched;; mret (JObj d')
          end
  | _ => raise AttributeError
  end.

(** What [for n in nodes] iterates over: the items of a list, the keys of
    a dict, the characters of a string (every item is then a string, one
    per character; only their number matters below); nothing else is
    iterable. *)
Fixpoint chars (s : string) : list json :=
  match s with
  | EmptyString => []
  | String c rest => JStr (String c EmptyString) :: chars rest
  end.

Definition py_iter {S} (v : json) : M S (list json) :=
  match v with
  | JArr l => mret l
  | JObj d => mret (JStr <$> d.*1)
  | JStr s => mret (chars s)
  | _ => raise TypeError
  end.

(** The body of [for wf in workflows]. The nodes are mutated in place, so
    the workflow afterwards holds the rewritten nodes at the key it had;
    [wf.get("nodes", [])] leaves a workflow without that key as it is. *)
Definition patch_workflow (mapping : gmap string string) (workflow_slug : string)
    (wf : json) : M counters json :=
  match wf with
  | JObj d =>
      match dict_get "nodes" d with
      | None => mret wf
      | Some (JArr ns) =>
          ns' ← for_each (patch_node mapping workflow_slug) ns;
          mret (JObj (dict_set "nodes" (JArr ns') d))
      | Some v =>
          items ← py_iter v;
          for_each (patch_node mapping workflow_slug) items;;
          mret wf
      end
  | _ => raise AttributeError
  end.

(** [workflows = data if isinstance(data, list) else [data]] *)
Definition workflows (data : json) : list json :=
  match data with
  | JArr l => l
  | _ => [data]
  end.

(** [data] after the loop: [workflows] aliases [data] (or its only
    element is [data]), so the root keeps its shape. *)
Definition rewrap (data : json) (wfs : list json) : json :=
  match data with
  | JArr _ => JArr wfs
  | _ => default data (head wfs)
  end.

(** Lines 37 to 60: both counters start at zero; the result is the
    document as [json.dump] will see it, with the final counters. *)
Definition patch_document (mapping : gmap string string) (workflow_slug : string)
    (data : json) : result (json * counters) :=
  match for_each (patch_workflow mapping workflow_slug) (workflows data)
          (Counters 0 0) with
  | (Ok wfs, c) => Ok (rewrap data wfs, c)
  | (Raise e, _) => Raise e
  end.

(** ** Paths ([os.path] on POSIX) *)

Definition is_slash (c : ascii) : bool := bool_decide (c = "/"%char).

Definition starts_with_slash (s : string) : bool :=
  match s with
  | String c _ => is_slash c
  | EmptyString => false
  end.

Fixpoint ends_with_slash (s : string) : bool :=
  match s with
  | EmptyString => false
  | String c EmptyString => is_slash c
  | String _ rest => ends_with_slash rest
  end.

(** [os.path.join(a, b)]: an absolute [b] discards [a]; a separator is
    inserted unless [a] is empty or already ends with one. *)
Definition os_path_join (a b : string) : string :=
  if starts_with_slash b then b
  else if bool_decide (a = "") || ends_with_slash a then a +:+ b
  else a +:+ "/" +:+ b.

(** [os.path.basename(p)] is [p[p.rfind('/') + 1:]]: [acc] is the part
    after the last separator seen so far. *)
Fixpoint basename_go (acc p : string) : string :=
  match p with
  | EmptyString => acc
  | String c rest => if is_slash c then basename_go rest rest else basename_go acc rest
  end.

Definition os_path_basename (p : string) : string := basename_go p p.

(** ** The mapping builder (lines 19 to 26) *)

(** The character class [[0-9a-fA-F-]]. *)
Definition in_class (c : ascii) : bool :=
  let n := N_of_ascii c in
  ((48 <=? n) && (n <=? 57) || (97 <=? n) && (n <=? 102)
   || (65 <=? n) && (n <=? 70) || (n =? 45))%N.

(** [[0-9a-fA-F-]{n}] at the head of [s]: the characters consumed and the
    rest of the subject. *)
Fixpoint match_class (n : nat) (s : string) : option (string * string) :=
  match n with
  | O => Some (EmptyString, s)
  | S n' =>
      match s with
      | String c rest =>
          if in_class c then
            match match_class n' rest with
            | Some (tok, rest') => Some (String c tok, rest')
            | None => None
            end
          else None
      | EmptyString => None
      end
  end.

(** [$] without [re.MULTILINE]: at the end of the subject, or just before
    a newline that ends it. *)
Definition at_dollar (s : string) : bool :=
  bool_decide (s = "") || bool_decide (s = String "010"%char "").

(** A literal piece of the pattern at the head of [s]: the rest of the
    subject. *)
Fixpoint match_lit (lit s : string) : option string :=
  match lit, s with
  | EmptyString, _ => Some s
  | String a lit', String b s' => if Ascii.eqb a b then match_lit lit' s' else None
  | String _ _, EmptyString => None
  end.

(** The pattern [__([0-9a-fA-F-]{36})\.js$] matched at the head of [s],
    piece by piece (no piece leaves a choice); the result is group 1. *)
Definition match_here (s : string) : option string :=
  s1 ← match_lit "__" s;
  '(tok, s2) ← match_class 36 s1;
  s3 ← match_lit ".js" s2;
  if at_dollar s3 then Some tok else None.

(** [re.search(pattern, base)] followed by [m.group(1)]: the match at the
    leftmost position where the pattern matches; [None] when there is none. *)
Fixpoint re_search (base : string) : option string :=
  match match_here base with
  | Some tok => Some tok
  | None =>
      match base with
      | EmptyString => None
      | String _ rest => re_search rest
      end
  end.

(** The body of [for p in glob.glob(...)]. *)
Definition mapping_step (mapping : gmap string string) (p : string)
  : gmap string string :=
  let base := os_path_basename p in
  match re_search base with
  | None => mapping
  | Some node_id => <[node_id := base]> mapping
  end.

(** [mapping] after the loop over the listing [paths]. *)
Definition build_mapping (paths : list string) : gmap string string :=
  foldl mapping_step ∅ paths.

(** ** The program and its environment *)

(** What opening and parsing the workflow file can give. *)
Inductive file_read : Type :=
| NotReadable              (* [open] raises an [OSError] *)
| Malformed                (* [json.load] raises [JSONDecodeError] *)
| Parsed (data : json).

(** The file system as the script queries it. [glob] is the library call
    [glob.glob]: for the pattern [<js_dir>/*.js] it lists, in the order
    of the directory listing, the entries of [<js_dir>] itself whose
    names match [*.js]. *)
Record World : Type := {
  path_exists : string -> bool;        (* [os.path.exists] *)
  path_isdir : string -> bool;         (* [os.path.isdir] *)
  glob : string -> list string;        (* [glob.glob], in listing order *)
  load : string -> file_read;          (* [open(..., "r")] and [json.load] *)
  can_makedirs : string -> bool;       (* [os.makedirs(..., exist_ok=True)] succeeds *)
  can_write : string -> bool;          (* [open(..., "w")] succeeds *)
}.

(** The effects the script performs, in order. *)
Inductive event : Type :=
| EvExists (path : string)
| EvIsdir (path : string)
| EvGlob (pattern : string)
| EvLoad (path : string)
| EvMakedirs (path : string)
| EvDump (path : string) (data : json)
| EvStdout (line : string)
| EvStderr (line : string).

Definition emit (e : event) : M (list event) unit := modify (fun t => t ++ [e]).

(** [print(msg, file=sys.stderr); sys.exit(1)] *)
Definition die {A} (msg : string) : M (list event) A :=
  emit (EvStderr msg);; raise (SystemExit 1).

Definition usage : string :=
  "Usage: patch_workflow_use_external_js.py <workflow_json> <js_dir> <workflow_slug>".

(** The script, given [sys.argv] (the script name, then the arguments). *)
Definition main (w : World) (argv : list string) : M (list event) unit :=
  match argv with
  | [_; wf_path; js_dir; workflow_slug] =>
      emit (EvExists wf_path);;
      (if negb (path_exists w wf_path)
       then die ("Missing workflow json: " +:+ wf_path) else mret tt);;
      emit (EvIsdir js_dir);;
      (if negb (path_isdir w js_dir)
       then die ("Missing js dir: " +:+ js_dir) else mret tt);;
      let pattern := os_path_join js_dir "*.js" in
      emit (EvGlob pattern);;
      let mapping := build_mapping (glob w pattern) in
      (if bool_decide (mapping = ∅)
       then die ("No node-id mapped js files found in " +:+ js_dir) else mret tt);;
      emit (EvLoad wf_path);;
      match load w wf_path with
      | NotReadable => raise OSError
      | Malformed => raise JSONDecodeError
      | Parsed data =>
          match patch_document mapping workflow_slug data with
          | Raise e => raise e
          | Ok (data', c) =>
              let out_path :=
                os_path_join "tmp" (workflow_slug +:+ ".raw.externalized.json") in
              emit (EvMakedirs "tmp");;
              (if can_makedirs w "tmp" then mret tt else raise OSError);;
              (if can_write w out_path then mret tt else raise OSError);;
              emit (EvDump out_path data');;
              emit (EvStdout ("Patched code nodes: " +:+ pretty (total_patched c)
                              +:+ ", skipped: " +:+ pretty (total_skipped c)));;
              emit (EvStdout ("Wrote: " +:+ out_path))
          end
      end
  | _ => die usage
  end.

(** [main] from an empty trace: the events performed and how it ended. *)
Definition run (w : World) (argv : list string) : result unit * list event :=
  main w argv [].

(** Exit status of the process: [sys.exit(n)] gives [n], any other
    uncaught exception gives 1, normal termination 0. *)
Definition exit_status {A} (r : result A) : Z :=
  match r with
  | Ok _ => 0
  | Raise (SystemExit n) => n
  | Raise _ => 1
  end.

(** * Vocabulary of the statements *)

(** ** The loop body as a relation *)

(** The [parameters] container of a node: empty when the key is absent,
    undefined when the value is not a dict. *)
Definition params_of (d : dict) : option dict :=
  match dict_get "parameters" d with
  | None => Some []
  | Some (JObj p) => Some p
  | Some _ => None
  end.

(** A node whose [parameters] container [p] received the code [w]. *)
Definition with_jsCode (w : string) (p d : dict) : dict :=
  dict_set "parameters" (JObj (dict_set "jsCode" (JStr w) p)) d.

(** An id under which the lookup finds no file name: a false value, a
    string that is not a key (the builder stores no empty name), or a
    hashable value that is not a string. *)
Definition unmapped (mapping : gmap string string) (nid : json) : Prop :=
  truthy nid = false ∨
  match nid with
  | JStr s => mapping !! s = None ∨ mapping !! s = Some ""
  | JArr _ | JObj _ => False
  | _ => True
  end.

(** The three ways the body of [for n in nodes] completes: the node after
    the body and the increments of [total_patched] and [total_skipped]. *)
Inductive node_step (mapping : gmap string string) (workflow_slug : string)
  : json → json → nat → nat → Prop :=
| step_other d :
    is_code_type d = false →
    node_step mapping workflow_slug (JObj d) (JObj d) 0 0
| step_skip d :
    is_code_type d = true →
    unmapped mapping (py_get "id" d) →
    node_step mapping workflow_slug (JObj d) (JObj d) 0 1
| step_patch d nid fn p :
    is_code_type d = true →
    py_get "id" d = JStr nid → nid ≠ "" →
    mapping !! nid = Some fn → fn ≠ "" →
    params_of d = Some p →
    node_step mapping workflow_slug (JObj d)
      (JObj (with_jsCode (wrapper workflow_slug fn) p d)) 1 0.

Definition bump (c : counters) (dp ds : nat) : counters :=
  Counters (total_patched c + dp) (total_skipped c + ds).

(** ** File names that carry a node id *)

(** A character of the class, stated by enumeration. *)
Definition hex_or_hyphen (c : ascii) : Prop :=
  c ∈ list_ascii_of_string "0123456789abcdefABCDEF-".

(** A 36-character token of hexadecimal digits and hyphens. *)
Definition token (u : string) : Prop :=
  String.length u = 36 ∧ Forall hex_or_hyphen (list_ascii_of_string u).

(** [base] is [<anything>__<token>.js] with token [u]. *)
Definition names_node_id (base u : string) : Prop :=
  ∃ pre, base = pre +:+ "__" +:+ u +:+ ".js" ∧ token u.

Definition newline : string := String "010"%char "".

(** The names glob returns for a [*.js] pattern end in [.js]. *)
Definition ends_js (p : string) : Prop := ∃ x, p = x +:+ ".js".

(** ** Nodes of a document *)

(** The nodes of a workflow that the loop visits as nodes. *)
Definition nodes_of (wf : json) : list json :=
  match wf with
  | JObj d => match dict_get "nodes" d with
              | Some (JArr ns) => ns
              | _ => []
              end
  | _ => []
  end.

(** Node [j] of workflow [i] of a document. *)
Definition node_at (data : json) (i j : nat) : option json :=
  wf ← workflows data !! i; nodes_of wf !! j.

(** The value at [parameters.jsCode] of a node. *)
Definition jsCode_of (n : json) : option json :=
  match n with
  | JObj d => match dict_get "parameters" d with
              | Some (JObj p) => dict_get "jsCode" p
              | _ => None
              end
  | _ => None
  end.

Definition is_code_node (n : json) : bool :=
  match n with
  | JObj d => is_code_type d
  | _ => false
  end.

(** The code-type nodes of all workflows of a document. *)
Definition count_code_nodes (data : json) : nat :=
  sum_list ((λ wf, length (filter is_code_node (nodes_of wf))) <$> workflows data).

(** ** The wrapper as the interface describes it

    Written from the description of the generated code, not from the
    script's f-strings: the module path, the bindings, the tag. *)
Definition module_path (workflow_slug filename : string) : string :=
  "/data/js/workflows/" +:+ workflow_slug +:+ "/" +:+ filename.

Definition error_tag (workflow_slug filename : string) : string :=
  "[extjs:" +:+ workflow_slug +:+ "/" +:+ filename +:+ "]".

Definition wrapper_template (workflow_slug filename : string) : string :=
  "try{const fn=require('" +:+ module_path workflow_slug filename +:+ "');"
  +:+ "return await fn({$input,$json,$items,$node,$env,helpers});}"
  +:+ "catch(e){e.message=`" +:+ error_tag workflow_slug filename
  +:+ " ${e.message}`;throw e;}".

(** ** Structural fidelity *)

(** The items of a dict under every key but [k], in order. *)
Definition fields_except (k : string) (d : dict) : dict :=
  filter (λ kv, kv.1 ≠ k) d.

(** [d'] is [d] with at most the value under [k] changed: the other items
    are the same in the same order, and the keys are those of [d], with
    [k] added last if it was absent. *)
Definition updated_at (k : string) (d d' : dict) : Prop :=
  fields_except k d' = fields_except k d
  ∧ d'.*1 = match dict_get k d with
            | Some _ => d.*1
            | None => d.*1 ++ [k]
            end.

(** A node before and after: untouched, or a code-type node that differs
    at most at [parameters.jsCode]. *)
Definition node_frame (n n' : json) : Prop :=
  n' = n ∨
  (is_code_node n = true ∧
   ∃ d d' p p', n = JObj d ∧ n' = JObj d'
     ∧ updated_at "parameters" d d'
     ∧ params_of d = Some p ∧ dict_get "parameters" d' = Some (JObj p')
     ∧ updated_at "jsCode" p p').

(** The value under [nodes] before and after: the same nodes in the same
    order, each framed; any other value is unchanged. *)
Definition nodes_frame (v v' : json) : Prop :=
  match v with
  | JArr ns => ∃ ns', v' = JArr ns' ∧ Forall2 node_frame ns ns'
  | _ => v' = v
  end.

(** A workflow before and after: the same keys in the same order, every
    field but [nodes] unchanged, the nodes framed. *)
Definition workflow_frame (wf wf' : json) : Prop :=
  ∃ d d', wf = JObj d ∧ wf' = JObj d'
    ∧ d'.*1 = d.*1
    ∧ fields_except "nodes" d' = fields_except "nodes" d
    ∧ option_Forall2 nodes_frame (dict_get "nodes" d) (dict_get "nodes" d').

(** A document before and after: an array stays an array of as many
    workflows, a single workflow stays a single workflow. *)
Definition document_frame (data data' : json) : Prop :=
  match data with
  | JArr wfs => ∃ wfs', data' = JArr wfs' ∧ Forall2 workflow_frame wfs wfs'
  | _ => workflow_frame data data'
  end.

(** ** Valid input documents

    A workflow is an object whose [nodes], when present, is an array of
    node objects; a code-type node has a hashable (or false) [id] and a
    [parameters] that, when present, is an object. *)
Definition id_ok (v : json) : bool :=
  match v with
  | JArr (_ :: _) | JObj (_ :: _) => false
  | _ => true
  end.

Definition valid_node (n : json) : bool :=
  match n with
  | JObj d =>
      negb (is_code_type d)
      || (id_ok (py_get "id" d) && bool_decide (is_Some (params_of d)))
  | _ => false
  end.

Definition valid_workflow (wf : json) : bool :=
  match wf with
  | JObj d => match dict_get "nodes" d with
              | None => true
              | Some (JArr ns) => forallb valid_node ns
              | Some _ => false
              end
  | _ => false
  end.

Definition valid_document (data : json) : bool :=
  forallb valid_workflow (workflows data).

(** ** What the process shows on its error stream *)

(** A line printed by the script, or the interpreter's report of an
    uncaught exception (a header line, the stack frames, and the line of
    the exception itself). *)
Inductive stderr_item : Type :=
| Line (text : string)
| Traceback (e : exn).

Definition stderr_of (r : result unit * list event) : list stderr_item :=
  omap (λ ev, match ev with EvStderr msg => Some (Line msg) | _ => None end) r.2
  ++ match r.1 with
     | Ok _ | Raise (SystemExit _) => []
     | Raise e => [Traceback e]
     end.

(** The events that build the mapping, parse the document or write. *)
Definition maps_parses_or_writes (ev : event) : bool :=
  match ev with
  | EvGlob _ | EvLoad _ | EvMakedirs _ | EvDump _ _ => true
  | _ => false
  end.

(** The documents written, with their paths. *)
Definition written (t : list event) : list (string * json) :=
  omap (λ ev, match ev with EvDump path data => Some (path, data) | _ => None end) t.

(** ** The output file and the report *)

(** [tmp/<slug>.raw.externalized.json], as [os.path.join] builds it. *)
Definition out_path_of (workflow_slug : string) : string :=
  os_path_join "tmp" (workflow_slug +:+ ".raw.externalized.json").

(** The first line of the report. *)
Definition report (c : counters) : string :=
  "Patched code nodes: " +:+ pretty (total_patched c)
  +:+ ", skipped: " +:+ pretty (total_skipped c).

(** The lines printed on standard output. *)
Definition stdout_of (t : list event) : list string :=
  omap (λ ev, match ev with EvStdout line => Some line | _ => None end) t.

(** ** Sample inputs *)

Definition sample_id : string := "11111111-1111-1111-1111-111111111111".

Definition sample_file : string :=
  "build-sql__11111111-1111-1111-1111-111111111111.js".

(** A listing with one mapped file and one file without a node id. *)
Definition sample_listing : list string :=
  ["js/build-sql__11111111-1111-1111-1111-111111111111.js"; "js/readme.js"].

(** A code node whose id is mapped; it has no [parameters] yet. *)
Definition sample_mapped : dict :=
  [("id", JStr sample_id); ("name", JStr "Build SQL");
   ("type", JStr "n8n-nodes-base.code")].

(** A code node whose id is not mapped. *)
Definition sample_unmapped : dict :=
  [("parameters", JObj [("jsCode", JStr "return items;")]);
   ("id", JStr "22222222-2222-2222-2222-222222222222");
   ("type", JStr "n8n-nodes-base.code")].

(** A node of another type. *)
Definition sample_other : dict :=
  [("parameters", JObj [("jsCode", JStr "kept")]);
   ("id", JStr sample_id); ("type", JStr "n8n-nodes-base.set")].

(** A workflow without a [nodes] key. *)
Definition sample_bare : dict := [("name", JStr "empty"); ("active", JBool false)].

Definition sample_document : json :=
  JArr [JObj [("name", JStr "wf");
              ("nodes", JArr [JObj sample_mapped; JObj sample_unmapped;
                              JObj sample_other]);
              ("active", JBool true)];
        JObj sample_bare].

(** The file system around the sample: any path exists, [js] and [docs]
    are the directories, [readable] is what the workflow file holds, and
    [docs] holds scripts that name no node id. *)
Definition sample_world (readable : file_read) : World :=
  {| path_exists := λ _, true;
     path_isdir := λ path, String.eqb path "js" || String.eqb path "docs";
     glob := λ pattern,
       if String.eqb pattern "js/*.js" then sample_listing
       else if String.eqb pattern "docs/*.js" then ["docs/readme.js"; "docs/a__b.js"]
       else [];
     load := λ _, readable;
     can_makedirs := λ _, true;
     can_write := λ _, true |}.

(** A file system in which nothing exists. *)
Definition empty_world : World :=
  {| path_exists := λ _, false;
     path_isdir := λ _, false;
     glob := λ _, [];
     load := λ _, NotReadable;
     can_makedirs := λ _, true;
     can_write := λ _, true |}.

Definition sample_argv : list string :=
  ["patch_workflow_use_external_js.py"; "wf.json"; "js"; "demo"].

(** The sample document after the run with slug [demo], and the counters. *)
Definition sample_patched : json * counters :=
  Eval vm_compute in
    match patch_document (build_mapping sample_listing) "demo" sample_document with
    | Ok r => r
    | Raise _ => (JNull, Counters 0 0)
    end.

(** ** Vocabulary of the further properties *)

(** A string holds a path separator. *)
Fixpoint has_slash (s : string) : bool :=
  match s with
  | EmptyString => false
  | String c rest => is_slash c || has_slash rest
  end.

(** A code-type node whose [id] is a string key of the mapping. *)
Definition mapped_node (mapping : gmap string string) (n : json) : bool :=
  match n with
  | JObj d =>
      is_code_type d
      && match py_get "id" d with
         | JStr nid => bool_decide (is_Some (mapping !! nid))
         | _ => false
         end
  | _ => false
  end.

(** The mapped code nodes of all workflows of a document. *)
Definition count_mapped (mapping : gmap string string) (data : json) : nat :=
  sum_list ((λ wf, length (filter (mapped_node mapping) (nodes_of wf)))
              <$> workflows data).

(** The nodes on which the loop body does not raise: an object that is
    not of the code type, or whose [id] is false, or whose [id] is
    hashable and either finds no file name or finds one while
    [parameters] is absent or a dict. *)
Definition patchable_node (mapping : gmap string string) (n : json) : bool :=
  match n with
  | JObj d =>
      negb (is_code_type d)
      || negb (truthy (py_get "id" d))
      || match py_get "id" d with
         | JStr nid =>
             match mapping !! nid with
             | Some fn => String.eqb fn "" || bool_decide (is_Some (params_of d))
             | None => true
             end
         | JArr _ | JObj _ => false
         | _ => true
         end
  | _ => false
  end.

(** The workflows on which the loop body does not raise: an object whose
    [nodes] is absent, an array of such nodes, or an empty dict or
    string. *)
Definition patchable_workflow (mapping : gmap string string) (wf : json) : bool :=
  match wf with
  | JObj d =>
      match dict_get "nodes" d with
      | None => true
      | Some (JArr ns) => forallb (patchable_node mapping) ns
      | Some (JObj items) => bool_decide (items = [])
      | Some (JStr s) => String.eqb s ""
      | Some _ => false
      end
  | _ => false
  end.

Definition patchable (mapping : gmap string string) (data : json) : bool :=
  forallb (patchable_workflow mapping) (workflows data).

(** Two scripts for two nodes, listed in either order. *)
Definition two_scripts : list string :=
  ["js/a__11111111-1111-1111-1111-111111111111.js";
   "js/b__22222222-2222-2222-2222-222222222222.js"].

(** A mapped code node whose [parameters] is not a dict. *)
Definition sample_bad_parameters : dict :=
  [("id", JStr sample_id); ("type", JStr "n8n-nodes-base.code");
   ("parameters", JArr [])].

(** A code node whose [id] is an array. *)
Definition sample_bad_id : dict :=
  [("id", JArr [JInt 1]); ("type", JStr "n8n-nodes-base.code")].

(** A code node whose [id] is a number. *)
Definition sample_numeric_id : dict :=
  [("id", JInt 7); ("type", JStr "n8n-nodes-base.code")].

(** * Properties *)

(** ** The embedding on concrete inputs *)

Example re_search_sample : re_search sample_file = Some sample_id.
Proof. reflexivity. Qed.

Example re_search_needs_36 : re_search "a__1111-2222.js" = None.
Proof. reflexivity. Qed.

Example re_search_anchored :
  re_search "a__11111111-1111-1111-1111-111111111111.json" = None.
Proof. reflexivity. Qed.

Example re_search_before_final_newline :
  re_search (sample_file +:+ newline) = Some sample_id.
Proof. reflexivity. Qed.

Example basename_sample : os_path_basename "js/lib/x__y.js" = "x__y.js".
Proof. reflexivity. Qed.

Example join_samples :
  os_path_join "js" "*.js" = "js/*.js"
  ∧ os_path_join "js/" "*.js" = "js/*.js"
  ∧ os_path_join "tmp" "/etc/x" = "/etc/x".
Proof. by repeat split. Qed.

Example last_listed_file_wins :
  build_mapping ["js/a__11111111-1111-1111-1111-111111111111.js";
                 "js/b__11111111-1111-1111-1111-111111111111.js"]
  !! sample_id
  = Some "b__11111111-1111-1111-1111-111111111111.js".
Proof. vm_compute. reflexivity. Qed.

Example sample_run_report :
  stdout_of (run (sample_world (Parsed sample_document)) sample_argv).2
  = ["Patched code nodes: 1, skipped: 1";
     "Wrote: tmp/demo.raw.externalized.json"].
Proof. vm_compute. reflexivity. Qed.

(** Documents outside the data model make the loop raise. *)
Example root_not_an_object :
  patch_document (build_mapping sample_listing) "demo" (JStr "x")
  = Raise AttributeError.
Proof. vm_compute. reflexivity. Qed.

Example nodes_null :
  patch_document (build_mapping sample_listing) "demo" (JObj [("nodes", JNull)])
  = Raise TypeError.
Proof. vm_compute. reflexivity. Qed.

Example parameters_not_a_dict :
  patch_document (build_mapping sample_listing) "demo"
    (JObj [("nodes", JArr [JObj (sample_mapped ++ [("parameters", JArr [])])])])
  = Raise TypeError.
Proof. vm_compute. reflexivity. Qed.

(** ** Dicts *)

Lemma dict_get_set_eq k v d : dict_get k (dict_set k v d) = Some v.
Proof.
  induction d as [|[k' v'] d IH]; simpl.
  - by rewrite String.eqb_refl.
  - destruct (String.eqb k' k) eqn:E; simpl.
    + by rewrite String.eqb_refl.
    + by rewrite E.
Qed.

Lemma dict_get_set_ne k k' v d :
  k ≠ k' → dict_get k' (dict_set k v d) = dict_get k' d.
Proof.
  intros Hne. induction d as [|[k0 v0] d IH]; simpl.
  - by apply String.eqb_neq in Hne as ->.
  - destruct (String.eqb k0 k) eqn:E; simpl.
    + apply String.eqb_eq in E as ->.
      by apply String.eqb_neq in Hne as ->.
    + by rewrite IH.
Qed.

Lemma dict_set_set k v v' d : dict_set k v (dict_set k v' d) = dict_set k v d.
Proof.
  induction d as [|[k0 v0] d IH]; simpl.
  - by rewrite String.eqb_refl.
  - destruct (String.eqb k0 k) eqn:E; simpl.
    + by rewrite String.eqb_refl.
    + by rewrite E, IH.
Qed.

Lemma dict_set_keys_present k v d x :
  dict_get k d = Some x → (dict_set k v d).*1 = d.*1.
Proof.
  induction d as [|[k0 v0] d IH]; cbn [dict_get dict_set]; [done|].
  destruct (String.eqb k0 k) eqn:E.
  - apply String.eqb_eq in E as ->. done.
  - intros H. rewrite !fmap_cons. f_equal. by apply IH.
Qed.

Lemma dict_set_keys_absent k v d :
  dict_get k d = None → (dict_set k v d).*1 = d.*1 ++ [k].
Proof.
  induction d as [|[k0 v0] d IH]; cbn [dict_get dict_set]; [done|].
  destruct (String.eqb k0 k) eqn:E; [done|].
  intros H. rewrite !fmap_cons. simpl. f_equal. by apply IH.
Qed.

(** ** Running monadic code *)

Lemma bind_run {S A B} (c : M S A) (f : A → M S B) s :
  (c ≫= f) s = match c s with
               | (Ok a, s') => f a s'
               | (Raise e, s') => (Raise e, s')
               end.
Proof. reflexivity. Qed.

Lemma for_each_cons {S A B} (body : A → M S B) x xs s :
  for_each body (x :: xs) s =
  match body x s with
  | (Ok y, s1) =>
      match for_each body xs s1 with
      | (Ok ys, s2) => (Ok (y :: ys), s2)
      | (Raise e, s2) => (Raise e, s2)
      end
  | (Raise e, s1) => (Raise e, s1)
  end.
Proof.
  simpl. rewrite bind_run. destruct (body x s) as [[y|e] s1]; [|done].
  rewrite bind_run. by destruct (for_each body xs s1) as [[ys|e] s2].
Qed.

(** A successful loop relates the items before and after pairwise, by
    some successful run of the body. *)
Lemma for_each_Forall2 {S A B} (body : A → M S B) xs ys s s' :
  for_each body xs s = (Ok ys, s') →
  Forall2 (λ x y, ∃ si si', body x si = (Ok y, si')) xs ys.
Proof.
  revert ys s. induction xs as [|x xs IH]; intros ys s.
  - intros [= <- _]. constructor.
  - rewrite for_each_cons.
    destruct (body x s) as [[y|e] s1] eqn:Hx; [|done].
    destruct (for_each body xs s1) as [[ys1|e] s2] eqn:Hxs; [|done].
    intros [= <- <-]. constructor.
    + by exists s, s1.
    + by apply (IH _ s1).
Qed.

(** A loop whose body is idempotent on its own results is idempotent. *)
Lemma for_each_idem {S A} (body : A → M S A) xs ys s s' :
  (∀ x y si si', body x si = (Ok y, si') → body y si = (Ok y, si')) →
  for_each body xs s = (Ok ys, s') →
  for_each body ys s = (Ok ys, s').
Proof.
  intros Hbody. revert ys s. induction xs as [|x xs IH]; intros ys s.
  - by intros [= <- <-].
  - rewrite for_each_cons.
    destruct (body x s) as [[y|e] s1] eqn:Hx; [|done].
    destruct (for_each body xs s1) as [[ys1|e] s2] eqn:Hxs; [|done].
    intros [= <- <-]. rewrite for_each_cons.
    by rewrite (Hbody _ _ _ _ Hx), (IH _ _ Hxs).
Qed.

(** A loop succeeds when its body succeeds on every item, in any state. *)
Lemma for_each_total {S A B} (body : A → M S B) xs :
  (∀ x, x ∈ xs → ∀ s, ∃ y s', body x s = (Ok y, s')) →
  ∀ s, ∃ ys s', for_each body xs s = (Ok ys, s').
Proof.
  induction xs as [|x xs IH]; intros Hbody s.
  - by exists [], s.
  - rewrite for_each_cons.
    destruct (Hbody x (list_elem_of_here _ _) s) as (y & s1 & ->).
    destruct (IH (λ x' Hx', Hbody x' (list_elem_of_further _ _ _ Hx')) s1)
      as (ys & s2 & ->).
    by exists (y :: ys), s2.
Qed.

(** ** The loop body, case by case *)

Lemma set_jsCode_run {S} w d (s : S) :
  set_jsCode w d s = match params_of d with
                     | Some p => (Ok (with_jsCode w p d), s)
                     | None => (Raise TypeError, s)
                     end.
Proof.
  unfold set_jsCode, dict_setdefault, params_of, with_jsCode.
  destruct (dict_get "parameters" d) as [[]|] eqn:E; try done.
  by rewrite dict_set_set.
Qed.

Lemma bump_0 c : bump c 0 0 = c.
Proof. destruct c. unfold bump. simpl. f_equal; lia. Qed.

Lemma skip_run {A} (a : A) c :
  (incr_skipped ≫= λ _, mret a) c = (Ok a, bump c 0 1).
Proof.
  rewrite bind_run. cbn. unfold bump. do 2 f_equal. lia.
Qed.

Lemma patched_run {A} (a : A) c :
  (incr_patched ≫= λ _, mret a) c = (Ok a, bump c 1 0).
Proof.
  rewrite bind_run. cbn. unfold bump. do 2 f_equal. lia.
Qed.

Section patch_loop.
Context (mapping : gmap string string) (workflow_slug : string).

Lemma node_step_run n n' dp ds c :
  node_step mapping workflow_slug n n' dp ds →
  patch_node mapping workflow_slug n c = (Ok n', bump c dp ds).
Proof.
  intros [d Ht | d Ht Hid | d nid fn p Ht Hid Hne Hfn Hfne Hp];
    unfold patch_node; rewrite Ht; cbn [negb].
  - by rewrite bump_0.
  - destruct Hid as [-> | Hid]; [apply skip_run|].
    destruct (truthy _); [|apply skip_run]. cbn [negb].
    destruct (py_get "id" d); try done;
      cbn [mapping_get]; rewrite bind_run; cbn -[incr_skipped];
      try apply skip_run.
    destruct Hid as [-> | ->]; apply skip_run.
  - rewrite Hid. cbn [truthy mapping_get].
    apply String.eqb_neq in Hne as ->. cbn [negb].
    rewrite bind_run. cbn -[incr_patched set_jsCode]. rewrite Hfn.
    apply String.eqb_neq in Hfne as ->.
    rewrite bind_run, set_jsCode_run, Hp. apply patched_run.
Qed.

Lemma patch_node_Ok n n' c c' :
  patch_node mapping workflow_slug n c = (Ok n', c') →
  ∃ dp ds, node_step mapping workflow_slug n n' dp ds ∧ c' = bump c dp ds.
Proof.
  destruct n as [| | | | |?|d]; try done.
  unfold patch_node.
  destruct (is_code_type d) eqn:Ht; cbn [negb].
  2:{ intros [= <- <-]. exists 0, 0.
      split; [by constructor|by rewrite bump_0]. }
  assert (Hskip : ∀ c0, unmapped mapping (py_get "id" d) →
            (incr_skipped ≫= λ _, mret (JObj d)) c0 = (Ok n', c') →
            ∃ dp ds, node_step mapping workflow_slug (JObj d) n' dp ds
                     ∧ c' = bump c0 dp ds).
  { intros c0 Hu. rewrite skip_run. intros [= <- <-].
    exists 0, 1. split; [by apply step_skip|done]. }
  destruct (truthy (py_get "id" d)) eqn:Htr; cbn [negb];
    [|apply Hskip; by left].
  rewrite bind_run.
  destruct (py_get "id" d) as [| | | |nid| |] eqn:Hid;
    cbn -[incr_skipped incr_patched set_jsCode]; try done;
    try (apply Hskip; by right).
  destruct (mapping !! nid) as [fn|] eqn:Hfn;
    [|apply Hskip; right; by left].
  destruct (String.eqb fn "") eqn:Hfe.
  { apply String.eqb_eq in Hfe as ->. apply Hskip. right. by right. }
  rewrite bind_run, set_jsCode_run.
  destruct (params_of d) as [p|] eqn:Hp; [|done].
  rewrite patched_run. intros [= <- <-]. exists 1, 0. split; [|done].
  eapply step_patch; eauto.
  - by intros ->.
  - by apply String.eqb_neq.
Qed.

End patch_loop.

(** ** Strings *)

Lemma app_cons a s1 s2 : String a s1 +:+ s2 = String a (s1 +:+ s2).
Proof. reflexivity. Qed.

Lemma app_assoc_s s1 s2 s3 : (s1 +:+ s2) +:+ s3 = s1 +:+ (s2 +:+ s3).
Proof. induction s1 as [|a s1 IH]; [done|]. by rewrite !app_cons, IH. Qed.

Lemma app_length_s s1 s2 :
  String.length (s1 +:+ s2) = String.length s1 + String.length s2.
Proof. induction s1 as [|a s1 IH]; [done|]. rewrite app_cons. simpl. by rewrite IH. Qed.

Lemma app_last_inj s1 s2 a b :
  s1 +:+ String a "" = s2 +:+ String b "" → a = b.
Proof.
  revert s2. induction s1 as [|c s1 IH]; intros [|c2 s2]; rewrite ?app_cons.
  - by intros [= ->].
  - intros [= _ H]. by destruct s2.
  - intros [= _ H]. by destruct s1.
  - intros [= _ H]. eauto.
Qed.

(** ** The regular expression *)

Lemma in_class_spec c : in_class c = true ↔ hex_or_hyphen c.
Proof.
  unfold hex_or_hyphen.
  assert (in_class c
          = bool_decide (c ∈ list_ascii_of_string "0123456789abcdefABCDEF-"))
    as ->; [|apply bool_decide_eq_true].
  destruct c as [[] [] [] [] [] [] [] []]; vm_compute; reflexivity.
Qed.

Lemma match_lit_Some lit s rest : match_lit lit s = Some rest ↔ s = lit +:+ rest.
Proof.
  revert s. induction lit as [|a lit IH]; intros s; simpl.
  - split; [by intros [= ->]|by intros ->].
  - destruct s as [|b s]; [done|]. rewrite app_cons.
    destruct (Ascii.eqb_spec a b) as [->|Hne].
    + rewrite IH. split; [by intros ->|by intros [= ->]].
    + split; [done|]. by intros [= -> _].
Qed.

Lemma match_class_Some n s tok rest :
  match_class n s = Some (tok, rest) →
  s = tok +:+ rest ∧ String.length tok = n
  ∧ Forall hex_or_hyphen (list_ascii_of_string tok).
Proof.
  revert s tok. induction n as [|n IH]; intros s tok; simpl.
  - intros [= <- <-]. by repeat split.
  - destruct s as [|c s]; [done|].
    destruct (in_class c) eqn:Hc; [|done].
    destruct (match_class n s) as [[tok' rest']|] eqn:Hm; [|done].
    intros [= <- <-]. destruct (IH _ _ Hm) as (-> & <- & Hall).
    repeat split. simpl. constructor; [by apply in_class_spec|done].
Qed.

Lemma match_class_complete tok rest :
  Forall hex_or_hyphen (list_ascii_of_string tok) →
  match_class (String.length tok) (tok +:+ rest) = Some (tok, rest).
Proof.
  induction tok as [|c tok IH]; [done|].
  cbn [list_ascii_of_string String.length].
  intros [Hc Hall]%Forall_cons. rewrite app_cons. cbn [match_class].
  apply in_class_spec in Hc as ->. by rewrite IH.
Qed.

Lemma at_dollar_spec s : at_dollar s = true ↔ s = "" ∨ s = newline.
Proof.
  unfold at_dollar, newline.
  rewrite orb_true_iff, !bool_decide_eq_true. done.
Qed.

(** What a match at the head of [s] says about [s]. *)
Lemma match_here_Some s u :
  match_here s = Some u ↔
  token u ∧ ∃ nl, (nl = "" ∨ nl = newline) ∧ s = "__" +:+ u +:+ ".js" +:+ nl.
Proof.
  unfold match_here. split.
  - destruct (match_lit "__" s) as [s1|] eqn:H1; [|done].
    apply match_lit_Some in H1 as ->. cbn [mbind option_bind].
    destruct (match_class 36 s1) as [[tok s2]|] eqn:H2; [|done].
    apply match_class_Some in H2 as (-> & Hlen & Hall). cbn [mbind option_bind].
    destruct (match_lit ".js" s2) as [s3|] eqn:H3; [|done].
    apply match_lit_Some in H3 as ->. cbn [mbind option_bind].
    destruct (at_dollar s3) eqn:H4; [|done].
    apply at_dollar_spec in H4. intros [= <-]. split; [done|]. by exists s3.
  - intros ([Hlen Hall] & nl & Hnl & ->).
    assert (match_lit "__" ("__" +:+ u +:+ ".js" +:+ nl)
            = Some (u +:+ ".js" +:+ nl)) as -> by by apply match_lit_Some.
    cbn [mbind option_bind]. rewrite <- Hlen, match_class_complete by done.
    cbn [mbind option_bind].
    assert (match_lit ".js" (".js" +:+ nl) = Some nl) as ->
      by by apply match_lit_Some.
    cbn [mbind option_bind].
    by apply at_dollar_spec in Hnl as ->.
Qed.

Lemma app_nil_r_s s : s +:+ "" = s.
Proof. induction s as [|a s IH]; [done|]. by rewrite app_cons, IH. Qed.

(** A name ending in [.js] does not end with a newline. *)
Lemma js_not_newline x y : x +:+ ".js" ≠ y +:+ newline.
Proof.
  change ".js" with (".j" +:+ "s"). rewrite <- app_assoc_s.
  intros H%app_last_inj. discriminate H.
Qed.

Lemma re_search_eq s :
  re_search s = match match_here s with
                | Some tok => Some tok
                | None => match s with
                          | EmptyString => None
                          | String _ rest => re_search rest
                          end
                end.
Proof. by destruct s. Qed.

Lemma re_search_Some s u :
  re_search s = Some u →
  token u ∧ ∃ pre nl, (nl = "" ∨ nl = newline)
                      ∧ s = pre +:+ "__" +:+ u +:+ ".js" +:+ nl.
Proof.
  induction s as [|c s IH]; rewrite re_search_eq.
  - destruct (match_here "") as [t|] eqn:Hm; [|done].
    intros [= ->]. apply match_here_Some in Hm as (Ht & nl & Hnl & Hs).
    split; [done|]. by exists "", nl.
  - destruct (match_here (String c s)) as [t|] eqn:Hm.
    + intros [= ->]. apply match_here_Some in Hm as (Ht & nl & Hnl & Hs).
      split; [done|]. by exists "", nl.
    + intros (Ht & pre & nl & Hnl & ->)%IH. split; [done|].
      by exists (String c pre), nl.
Qed.

Lemma re_search_complete pre u :
  token u → re_search (pre +:+ "__" +:+ u +:+ ".js") = Some u.
Proof.
  intros Ht. induction pre as [|c pre IH]; rewrite re_search_eq.
  - assert (match_here ("" +:+ "__" +:+ u +:+ ".js") = Some u) as ->; [|done].
    apply match_here_Some. split; [done|]. exists "". split; [by left|].
    by rewrite app_nil_r_s.
  - destruct (match_here _) as [t|] eqn:Hm; [|by rewrite app_cons].
    exfalso. apply match_here_Some in Hm as ([Hlen _] & nl & Hnl & Hs).
    pose proof (f_equal String.length Hs) as HL.
    rewrite app_cons in HL. cbn [String.length] in HL.
    rewrite !app_length_s, Hlen, (proj1 Ht) in HL.
    destruct Hnl as [-> | ->]; cbn in HL; [lia|].
    revert Hs. rewrite <- !app_assoc_s. apply js_not_newline.
Qed.

(** On such a name the search succeeds exactly when the name has the form
    [<anything>__<token>.js], and returns that token. *)
Lemma re_search_names b u :
  ends_js b → re_search b = Some u ↔ names_node_id b u.
Proof.
  intros [x ->]. split.
  - intros (Ht & pre & nl & [-> | ->] & Hs)%re_search_Some.
    + exists pre. by rewrite app_nil_r_s in Hs.
    + exfalso. revert Hs. rewrite <- !app_assoc_s. apply js_not_newline.
  - intros (pre & -> & Ht). by apply re_search_complete.
Qed.

Lemma basename_go_ends_js acc x :
  ends_js acc → ends_js (basename_go acc (x +:+ ".js")).
Proof.
  revert acc. induction x as [|c x IH]; intros acc Hacc; [done|].
  rewrite app_cons. cbn [basename_go].
  destruct (is_slash c); apply IH; [by exists x|done].
Qed.

Lemma basename_ends_js p : ends_js p → ends_js (os_path_basename p).
Proof.
  intros [x ->]. apply basename_go_ends_js. by exists x.
Qed.

(** ** The mapping builder *)

Lemma build_mapping_snoc paths p :
  build_mapping (paths ++ [p]) = mapping_step (build_mapping paths) p.
Proof. unfold build_mapping. by rewrite foldl_app. Qed.

(** Where a listing extended by one path can be cut around an element. *)
Lemma snoc_split {A} (l l1 l2 : list A) x p :
  l ++ [x] = l1 ++ p :: l2 →
  (l2 = [] ∧ l = l1 ∧ p = x) ∨ (∃ l2', l2 = l2' ++ [x] ∧ l = l1 ++ p :: l2').
Proof.
  destruct l2 as [|y l2 _] using rev_ind.
  - intros [-> ->]%app_inj_tail. by left.
  - rewrite app_comm_cons, app_assoc. intros [-> ->]%app_inj_tail.
    right. by exists l2.
Qed.

(** The entry for [u] is the base name of the last listed path whose base
    name the search maps to [u]; there is no entry when there is none. *)
Lemma build_mapping_lookup paths u b :
  build_mapping paths !! u = Some b ↔
  ∃ l1 p l2, paths = l1 ++ p :: l2 ∧ b = os_path_basename p
             ∧ re_search b = Some u
             ∧ ∀ q, q ∈ l2 → re_search (os_path_basename q) ≠ Some u.
Proof.
  revert b. induction paths as [|x l IH] using rev_ind; intros b.
  { split; [done|]. intros (l1 & p & l2 & H & _). by destruct l1. }
  rewrite build_mapping_snoc. unfold mapping_step.
  assert (Hold : re_search (os_path_basename x) ≠ Some u →
            build_mapping l !! u = Some b ↔
            ∃ l1 p l2, l ++ [x] = l1 ++ p :: l2 ∧ b = os_path_basename p
                       ∧ re_search b = Some u
                       ∧ ∀ q, q ∈ l2 → re_search (os_path_basename q) ≠ Some u).
  { intros Hx. rewrite IH. split.
    - intros (l1 & p & l2 & -> & -> & Hp & Hl2).
      exists l1, p, (l2 ++ [x]). repeat split; [by rewrite <- app_assoc|done|].
      intros q [Hq | ->%list_elem_of_singleton]%elem_of_app; auto.
    - intros (l1 & p & l2 & Hsplit & -> & Hp & Hl2).
      apply snoc_split in Hsplit as [(-> & -> & ->) | (l2' & -> & ->)]; [done|].
      exists l1, p, l2'. repeat split; [done|].
      intros q Hq. apply Hl2, elem_of_app. by left. }
  destruct (re_search (os_path_basename x)) as [v|] eqn:Hx; [|by apply Hold].
  destruct (decide (v = u)) as [->|Hne].
  - rewrite lookup_insert_eq. split.
    + intros [= <-]. exists l, x, []. repeat split; [done|]. by intros q ?%elem_of_nil.
    + intros (l1 & p & l2 & Hsplit & -> & Hp & Hl2).
      apply snoc_split in Hsplit as [(-> & -> & ->) | (l2' & -> & ->)]; [done|].
      destruct (Hl2 x); [|done]. apply elem_of_app. right. by apply list_elem_of_singleton.
  - rewrite lookup_insert_ne by done. apply Hold. congruence.
Qed.

(** The builder stores no empty key and no empty file name. *)
Lemma build_mapping_nonempty paths u b :
  build_mapping paths !! u = Some b → u ≠ "" ∧ b ≠ "".
Proof.
  intros (_ & _ & _ & _ & _ & Hb & _)%build_mapping_lookup.
  split; intros ->; [|done].
  by apply re_search_Some in Hb as ([? _] & _).
Qed.

Lemma build_mapping_empty paths :
  (∀ p, p ∈ paths → re_search (os_path_basename p) = None) →
  build_mapping paths = ∅.
Proof.
  intros Hnone. apply map_eq. intros u. rewrite lookup_empty.
  destruct (build_mapping paths !! u) as [b|] eqn:Hb; [|done].
  apply build_mapping_lookup in Hb as (l1 & p & l2 & -> & -> & Hp & _).
  rewrite Hnone in Hp; [done|]. apply elem_of_app. right. by left.
Qed.

(** ** Frames of the dict updates *)

Lemma fields_except_set k v d : fields_except k (dict_set k v d) = fields_except k d.
Proof.
  unfold fields_except. induction d as [|[k0 v0] d IH]; cbn [dict_set].
  - rewrite filter_cons. by case_decide.
  - destruct (String.eqb_spec k0 k) as [->|Hne].
    + rewrite !filter_cons. cbn [fst]. by repeat case_decide.
    + rewrite !filter_cons. cbn [fst]. case_decide; [|done]. by rewrite IH.
Qed.

Lemma dict_set_updated_at k v d : updated_at k d (dict_set k v d).
Proof.
  split; [apply fields_except_set|].
  destruct (dict_get k d) eqn:E.
  - by eapply dict_set_keys_present.
  - by apply dict_set_keys_absent.
Qed.

Lemma py_get_set_ne k k' v d : k ≠ k' → py_get k' (dict_set k v d) = py_get k' d.
Proof. intros Hne. unfold py_get. by rewrite dict_get_set_ne. Qed.

Lemma params_of_with_jsCode w p d :
  params_of (with_jsCode w p d) = Some (dict_set "jsCode" (JStr w) p).
Proof. unfold params_of, with_jsCode. by rewrite dict_get_set_eq. Qed.

Section node_steps.
Context (mapping : gmap string string) (workflow_slug : string).

Lemma node_step_frame n n' dp ds :
  node_step mapping workflow_slug n n' dp ds → node_frame n n'.
Proof.
  intros [d Ht | d Ht Hid | d nid fn p Ht Hid Hne Hfn Hfne Hp];
    [by left | by left |].
  right. split; [done|].
  set (w := wrapper workflow_slug fn).
  exists d, (with_jsCode w p d), p, (dict_set "jsCode" (JStr w) p).
  split_and!; try done.
  - apply dict_set_updated_at.
  - apply dict_get_set_eq.
  - apply dict_set_updated_at.
Qed.

Lemma node_step_count n n' dp ds :
  node_step mapping workflow_slug n n' dp ds →
  dp + ds = (if is_code_node n then 1 else 0).
Proof. intros [d Ht | d Ht Hid | d nid fn p Ht Hid Hne Hfn Hfne Hp]; simpl; by rewrite Ht. Qed.

(** The body rewrites its own result to itself, with the same counts. *)
Lemma node_step_idem n n' dp ds :
  node_step mapping workflow_slug n n' dp ds →
  node_step mapping workflow_slug n' n' dp ds.
Proof.
  intros [d Ht | d Ht Hid | d nid fn p Ht Hid Hne Hfn Hfne Hp];
    [by constructor | by constructor |].
  set (w := wrapper workflow_slug fn).
  assert (with_jsCode w p d
          = with_jsCode w (dict_set "jsCode" (JStr w) p) (with_jsCode w p d))
    as Heq by (unfold with_jsCode; by rewrite !dict_set_set).
  rewrite Heq at 2.
  apply (step_patch _ _ (with_jsCode w p d) nid fn); try done.
  - unfold is_code_type, with_jsCode in *. by rewrite py_get_set_ne.
  - unfold with_jsCode. by rewrite py_get_set_ne.
  - apply params_of_with_jsCode.
Qed.

Lemma patch_node_idem n n' c c' :
  patch_node mapping workflow_slug n c = (Ok n', c') →
  patch_node mapping workflow_slug n' c = (Ok n', c').
Proof.
  intros (dp & ds & Hstep & ->)%patch_node_Ok.
  apply node_step_run. by eapply node_step_idem.
Qed.

Lemma patch_nodes_count ns ns' c c' :
  for_each (patch_node mapping workflow_slug) ns c = (Ok ns', c') →
  total_patched c' + total_skipped c'
  = total_patched c + total_skipped c + length (filter is_code_node ns).
Proof.
  revert ns' c. induction ns as [|n ns IH]; intros ns' c.
  - intros [= _ <-]. simpl. lia.
  - rewrite for_each_cons.
    destruct (patch_node _ _ n c) as [[y|e] c1] eqn:Hn; [|done].
    destruct (for_each _ ns c1) as [[ys|e] c2] eqn:Hns; [|done].
    intros [= _ <-]. rewrite (IH _ _ Hns).
    apply patch_node_Ok in Hn as (dp & ds & Hstep%node_step_count & ->).
    rewrite filter_cons. destruct (is_code_node n); simpl in *; lia.
Qed.

(** Strings are not nodes: a loop over them completes only when there
    is none. *)
Lemma patch_strings_Ok items ys c c' :
  Forall (λ x, ∃ s, x = JStr s) items →
  for_each (patch_node mapping workflow_slug) items c = (Ok ys, c') →
  items = [] ∧ c' = c.
Proof.
  intros [|x l [s ->] _]; [by intros [= _ <-]|].
  by rewrite for_each_cons.
Qed.

Lemma chars_strings s : Forall (λ x, ∃ s, x = JStr s) (chars s).
Proof. induction s; constructor; eauto. Qed.

Lemma patch_workflow_Ok wf wf' c c' :
  patch_workflow mapping workflow_slug wf c = (Ok wf', c') →
  ∃ d, wf = JObj d ∧
    match dict_get "nodes" d with
    | Some (JArr ns) =>
        ∃ ns', for_each (patch_node mapping workflow_slug) ns c = (Ok ns', c')
               ∧ wf' = JObj (dict_set "nodes" (JArr ns') d)
    | _ => wf' = wf ∧ c' = c
    end.
Proof.
  destruct wf as [| | | | |?|d]; try done.
  intros H. exists d. split; [done|]. revert H. unfold patch_workflow.
  destruct (dict_get "nodes" d) as [v|]; [|by intros [= <- <-]].
  assert (Hstr : ∀ items, Forall (λ x, ∃ s, x = JStr s) items →
            (for_each (patch_node mapping workflow_slug) items
               ≫= λ _, mret (JObj d)) c = (Ok wf', c') →
            wf' = JObj d ∧ c' = c).
  { intros items Hitems. rewrite bind_run.
    destruct (for_each _ items c) as [[ys|e] c1] eqn:Hrun; [|done].
    apply patch_strings_Ok in Hrun as [-> ->]; [|done]. by intros [= <- <-]. }
  destruct v as [| | | |s|ns|d0]; try done; rewrite bind_run; cbn [py_iter].
  - apply Hstr, chars_strings.
  - destruct (for_each _ ns c) as [[ns'|e] c1] eqn:Hrun; [|done].
    intros [= <- <-]. by exists ns'.
  - apply Hstr. apply Forall_fmap, Forall_true. intros k. by exists k.
Qed.

End node_steps.

(** ** Workflows and documents *)

Section documents.
Context (mapping : gmap string string) (workflow_slug : string).

Lemma patch_nodes_frame ns ns' c c' :
  for_each (patch_node mapping workflow_slug) ns c = (Ok ns', c') →
  Forall2 (λ n n', ∃ dp ds, node_step mapping workflow_slug n n' dp ds) ns ns'.
Proof.
  intros H%for_each_Forall2. eapply Forall2_impl; [done|].
  intros n n' (ci & ci' & (dp & ds & Hstep & _)%patch_node_Ok). eauto.
Qed.

Lemma patch_workflow_nodes wf wf' c c' :
  patch_workflow mapping workflow_slug wf c = (Ok wf', c') →
  for_each (patch_node mapping workflow_slug) (nodes_of wf) c
  = (Ok (nodes_of wf'), c').
Proof.
  intros (d & -> & H)%patch_workflow_Ok. unfold nodes_of at 1.
  destruct (dict_get "nodes" d) as [v|] eqn:Hv.
  - destruct v; try (destruct H as [-> ->]; unfold nodes_of; by rewrite Hv).
    destruct H as (ns' & Hrun & ->). unfold nodes_of.
    by rewrite dict_get_set_eq.
  - destruct H as [-> ->]. unfold nodes_of. by rewrite Hv.
Qed.

Lemma workflow_frame_refl d : workflow_frame (JObj d) (JObj d).
Proof.
  exists d, d. split_and!; try done.
  destruct (dict_get "nodes" d) as [v|]; constructor.
  destruct v; try done. exists items. split; [done|].
  apply Forall_Forall2_diag, Forall_true. by left.
Qed.

Lemma patch_workflow_frame wf wf' c c' :
  patch_workflow mapping workflow_slug wf c = (Ok wf', c') →
  workflow_frame wf wf'.
Proof.
  intros (d & -> & H)%patch_workflow_Ok.
  destruct (dict_get "nodes" d) as [v|] eqn:Hv.
  - destruct v; try (destruct H as [-> _]; apply workflow_frame_refl).
    destruct H as (ns' & Hrun & ->).
    exists d, (dict_set "nodes" (JArr ns') d). split_and!; try done.
    + by eapply dict_set_keys_present.
    + apply fields_except_set.
    + rewrite Hv, dict_get_set_eq. constructor. exists ns'. split; [done|].
      eapply Forall2_impl; [by eapply patch_nodes_frame|].
      intros n n' (dp & ds & Hstep). by eapply node_step_frame.
  - destruct H as [-> _]. apply workflow_frame_refl.
Qed.

Lemma patch_workflow_idem wf wf' c c' :
  patch_workflow mapping workflow_slug wf c = (Ok wf', c') →
  patch_workflow mapping workflow_slug wf' c = (Ok wf', c').
Proof.
  intros Hrun. pose proof Hrun as (d & -> & H)%patch_workflow_Ok.
  destruct (dict_get "nodes" d) as [v|] eqn:Hv.
  - destruct v; try (by destruct H as [-> ->]).
    destruct H as (ns' & Hns & ->).
    unfold patch_workflow. rewrite dict_get_set_eq, bind_run.
    rewrite (for_each_idem _ _ _ _ _ (patch_node_idem mapping workflow_slug) Hns).
    cbn. by rewrite dict_set_set.
  - by destruct H as [-> ->].
Qed.

Lemma patch_workflow_count wf wf' c c' :
  patch_workflow mapping workflow_slug wf c = (Ok wf', c') →
  total_patched c' + total_skipped c'
  = total_patched c + total_skipped c
    + length (filter is_code_node (nodes_of wf)).
Proof. intros H%patch_workflow_nodes. by eapply patch_nodes_count. Qed.

Lemma patch_node_total n :
  valid_node n = true →
  ∀ c, ∃ n' c', patch_node mapping workflow_slug n c = (Ok n', c').
Proof.
  intros Hv c.
  cut (∃ n' dp ds, node_step mapping workflow_slug n n' dp ds).
  { intros (n' & dp & ds & Hstep). eexists _, _. by apply node_step_run. }
  destruct n as [| | | | |?|d]; try done. simpl in Hv.
  destruct (is_code_type d) eqn:Ht; [|eexists _, _, _; by apply step_other].
  simpl in Hv. apply andb_true_iff in Hv as [Hid [p Hp]%bool_decide_eq_true].
  destruct (truthy (py_get "id" d)) eqn:Htr;
    [|eexists _, _, _; apply step_skip; [done|by left]].
  destruct (py_get "id" d) as [| | | |nid|[]|[]] eqn:Hnid; try done;
    try (eexists _, _, _; apply step_skip; [done|right; by rewrite Hnid]).
  destruct (mapping !! nid) as [fn|] eqn:Hfn;
    [|eexists _, _, _; apply step_skip; [done|right; rewrite Hnid; by left]].
  destruct (decide (fn = "")) as [->|Hne];
    [eexists _, _, _; apply step_skip; [done|right; rewrite Hnid; by right]|].
  eexists _, _, _. eapply step_patch; eauto. by intros ->.
Qed.

Lemma patch_workflow_total wf :
  valid_workflow wf = true →
  ∀ c, ∃ wf' c', patch_workflow mapping workflow_slug wf c = (Ok wf', c').
Proof.
  intros Hv c. destruct wf as [| | | | |?|d]; try done.
  unfold patch_workflow. simpl in Hv.
  destruct (dict_get "nodes" d) as [v|]; [|by eexists _, _].
  destruct v as [| | | | |ns|]; try done. rewrite bind_run.
  destruct (for_each_total (patch_node mapping workflow_slug) ns) with (s := c)
    as (ns' & c' & ->); [|by eexists _, _].
  intros n Hn. apply patch_node_total.
  rewrite forallb_forall in Hv. by apply Hv, list_elem_of_In.
Qed.

(** A successful run is a successful loop over the workflows, whose
    results are the workflows of the document afterwards. *)
Lemma patch_document_Ok data data' c :
  patch_document mapping workflow_slug data = Ok (data', c) →
  for_each (patch_workflow mapping workflow_slug) (workflows data) (Counters 0 0)
  = (Ok (workflows data'), c)
  ∧ data' = rewrap data (workflows data').
Proof.
  unfold patch_document.
  destruct (for_each _ (workflows data) _) as [[wfs|e] c1] eqn:Hrun; [|done].
  intros [= <- <-].
  assert (workflows (rewrap data wfs) = wfs) as ->; [|done].
  destruct data; try done; cbn [workflows] in Hrun.
  rewrite for_each_cons in Hrun.
  destruct (patch_workflow _ _ _ _) as [[wf'|e] c2] eqn:Hwf; [|done].
  apply patch_workflow_frame in Hwf as (d & d' & _ & -> & _).
  by injection Hrun as <- _.
Qed.

Lemma patch_document_total data :
  valid_document data = true →
  ∃ data' c, patch_document mapping workflow_slug data = Ok (data', c).
Proof.
  intros Hv. unfold patch_document.
  destruct (for_each_total (patch_workflow mapping workflow_slug) (workflows data))
    with (s := Counters 0 0) as (wfs & c & ->); [|by eexists _, _].
  intros wf Hwf. apply patch_workflow_total.
  unfold valid_document in Hv. rewrite forallb_forall in Hv.
  by apply Hv, list_elem_of_In.
Qed.

End documents.

Section document_properties.
Context (mapping : gmap string string) (workflow_slug : string).

Lemma rewrap_workflows data : rewrap data (workflows data) = data.
Proof. by destruct data. Qed.

Lemma patch_document_frame data data' c :
  patch_document mapping workflow_slug data = Ok (data', c) →
  document_frame data data'.
Proof.
  intros [Hrun Hdata]%patch_document_Ok.
  assert (Forall2 workflow_frame (workflows data) (workflows data')) as Hall.
  { eapply Forall2_impl; [by eapply for_each_Forall2|].
    intros wf wf' (ci & ci' & H). by eapply patch_workflow_frame. }
  destruct data as [| | | | |wfs|d];
    try (by inversion Hall as [|? ? ? ? (? & ? & ? & _)]).
  - exists (workflows data'). by rewrite Hdata at 1.
  - cbn [workflows] in Hall.
    inversion Hall as [|? wf' ? ? Hwf Hnil Heq1 Heq2]. inversion Hnil. subst.
    rewrite Hdata, <- Heq2. done.
Qed.

Lemma patch_document_idem data data' c :
  patch_document mapping workflow_slug data = Ok (data', c) →
  patch_document mapping workflow_slug data' = Ok (data', c).
Proof.
  intros [Hrun _]%patch_document_Ok. unfold patch_document.
  rewrite (for_each_idem _ _ _ _ _
             (patch_workflow_idem mapping workflow_slug) Hrun).
  by rewrite rewrap_workflows.
Qed.

Lemma patch_workflows_count wfs wfs' c c' :
  for_each (patch_workflow mapping workflow_slug) wfs c = (Ok wfs', c') →
  total_patched c' + total_skipped c'
  = total_patched c + total_skipped c
    + sum_list ((λ wf, length (filter is_code_node (nodes_of wf))) <$> wfs).
Proof.
  revert wfs' c. induction wfs as [|wf wfs IH]; intros wfs' c.
  - intros [= _ <-]. simpl. lia.
  - rewrite for_each_cons.
    destruct (patch_workflow _ _ wf c) as [[y|e] c1] eqn:Hwf; [|done].
    destruct (for_each _ wfs c1) as [[ys|e] c2] eqn:Hwfs; [|done].
    intros [= _ <-]. rewrite (IH _ _ Hwfs).
    apply patch_workflow_count in Hwf. rewrite fmap_cons. simpl. lia.
Qed.

Lemma patch_document_count data data' c :
  patch_document mapping workflow_slug data = Ok (data', c) →
  total_patched c + total_skipped c = count_code_nodes data.
Proof.
  intros [Hrun%patch_workflows_count _]%patch_document_Ok.
  rewrite Hrun. done.
Qed.

(** Every node of the input sits at the same place in the output, as the
    loop body left it. *)
Lemma patch_document_node_at data data' c i j n :
  patch_document mapping workflow_slug data = Ok (data', c) →
  node_at data i j = Some n →
  ∃ n' dp ds, node_at data' i j = Some n'
              ∧ node_step mapping workflow_slug n n' dp ds.
Proof.
  intros [Hrun%for_each_Forall2 _]%patch_document_Ok. unfold node_at.
  destruct (workflows data !! i) as [wf|] eqn:Hwf; [|done]. cbn.
  intros Hn.
  destruct (Forall2_lookup_l _ _ _ _ _ Hrun Hwf)
    as (wf' & -> & ci & ci' & Hstep%patch_workflow_nodes%patch_nodes_frame).
  destruct (Forall2_lookup_l _ _ _ _ _ Hstep Hn) as (n' & Hn' & dp & ds & Hns).
  cbn. eauto.
Qed.

(** A workflow of the input sits at the same place in the output, as the
    loop body left it. *)
Lemma patch_document_workflow_at data data' c i wf :
  patch_document mapping workflow_slug data = Ok (data', c) →
  workflows data !! i = Some wf →
  ∃ wf' ci ci', workflows data' !! i = Some wf'
    ∧ patch_workflow mapping workflow_slug wf ci = (Ok wf', ci').
Proof.
  intros [Hrun%for_each_Forall2 _]%patch_document_Ok Hwf.
  destruct (Forall2_lookup_l _ _ _ _ _ Hrun Hwf) as (wf' & ? & ci & ci' & ?).
  eauto.
Qed.

End document_properties.

(** ** The wrapper *)

Lemma wrapper_eq workflow_slug fn :
  wrapper workflow_slug fn = wrapper_template workflow_slug fn.
Proof.
  unfold wrapper, wrapper_template, module_path, error_tag.
  rewrite !app_assoc_s. reflexivity.
Qed.

(** ** The program, case by case *)

(** Run the statements up to the next test. *)
Ltac run_steps := rewrite !bind_run; cbn [emit modify mret M_ret app].

Lemma run_eq w prog wf_path js_dir workflow_slug :
  run w [prog; wf_path; js_dir; workflow_slug] =
  let pattern := os_path_join js_dir "*.js" in
  let mapping := build_mapping (glob w pattern) in
  let out_path := out_path_of workflow_slug in
  if negb (path_exists w wf_path) then
    (Raise (SystemExit 1),
     [EvExists wf_path; EvStderr ("Missing workflow json: " +:+ wf_path)])
  else if negb (path_isdir w js_dir) then
    (Raise (SystemExit 1),
     [EvExists wf_path; EvIsdir js_dir; EvStderr ("Missing js dir: " +:+ js_dir)])
  else if bool_decide (mapping = ∅) then
    (Raise (SystemExit 1),
     [EvExists wf_path; EvIsdir js_dir; EvGlob pattern;
      EvStderr ("No node-id mapped js files found in " +:+ js_dir)])
  else
    let read := [EvExists wf_path; EvIsdir js_dir; EvGlob pattern; EvLoad wf_path] in
    match load w wf_path with
    | NotReadable => (Raise OSError, read)
    | Malformed => (Raise JSONDecodeError, read)
    | Parsed data =>
        match patch_document mapping workflow_slug data with
        | Raise e => (Raise e, read)
        | Ok (data', c) =>
            if can_makedirs w "tmp" && can_write w out_path then
              (Ok tt, read ++ [EvMakedirs "tmp"; EvDump out_path data';
                               EvStdout (report c);
                               EvStdout ("Wrote: " +:+ out_path)])
            else (Raise OSError, read ++ [EvMakedirs "tmp"])
        end
    end.
Proof.
  unfold run, main, out_path_of, report.
  destruct (path_exists w wf_path); [|done].
  destruct (path_isdir w js_dir); [|done].
  cbn [negb]. do 2 run_steps.
  destruct (bool_decide (build_mapping _ = ∅)); [done|]. run_steps.
  destruct (load w wf_path) as [| |data]; [done..|].
  destruct (patch_document _ _ data) as [[data' c]|e]; [|done]. run_steps.
  destruct (can_makedirs w "tmp"); [|done]. run_steps.
  destruct (can_write w _); [|done].
  done.
Qed.

(** * The claims *)

Lemma is_code_type_spec d :
  is_code_type d = true ↔ dict_get "type" d = Some (JStr "n8n-nodes-base.code").
Proof.
  unfold is_code_type, py_get, code_node_type.
  destruct (dict_get "type" d) as [[| | | |s| |]|]; simpl; try by split.
  rewrite String.eqb_eq. split; [by intros ->|by intros [= ->]].
Qed.

Lemma py_get_Some k d v : dict_get k d = Some v → py_get k d = v.
Proof. unfold py_get. by intros ->. Qed.

(** What the loop body does to a node the mapping covers. *)
Lemma node_step_mapped mapping workflow_slug d nid filename n' dp ds :
  node_step mapping workflow_slug (JObj d) n' dp ds →
  is_code_type d = true → py_get "id" d = JStr nid →
  mapping !! nid = Some filename → nid ≠ "" → filename ≠ "" →
  ∃ p, params_of d = Some p ∧ dp = 1 ∧ ds = 0
       ∧ n' = JObj (with_jsCode (wrapper workflow_slug filename) p d).
Proof.
  intros Hstep Ht Hid Hfn Hne Hfne.
  inversion Hstep as [d0 Ht0 | d0 Ht0 Hun
                     | d0 nid0 fn0 p0 Ht0 Hid0 Hne0 Hfn0 Hfne0 Hp0]; subst.
  - congruence.
  - rewrite Hid in Hun. destruct Hun as [Hun|[Hun|Hun]]; [|congruence..].
    simpl in Hun. by apply negb_false_iff, String.eqb_eq in Hun.
  - rewrite Hid in Hid0. injection Hid0 as <-.
    rewrite Hfn in Hfn0. injection Hfn0 as <-. eauto.
Qed.

(** What the loop body does to a code node the mapping does not cover. *)
Lemma node_step_unmapped mapping workflow_slug d n' dp ds :
  node_step mapping workflow_slug (JObj d) n' dp ds →
  is_code_type d = true → unmapped mapping (py_get "id" d) →
  n' = JObj d ∧ dp = 0 ∧ ds = 1.
Proof.
  intros Hstep Ht Hun.
  inversion Hstep as [d0 Ht0 | d0 Ht0 Hun0
                     | d0 nid0 fn0 p0 Ht0 Hid0 Hne0 Hfn0 Hfne0 Hp0]; subst;
    [congruence|done|].
  exfalso. rewrite Hid0 in Hun.
  destruct Hun as [Hun|[Hun|Hun]]; [|congruence..].
  simpl in Hun. by apply negb_false_iff, String.eqb_eq in Hun.
Qed.

(** C1: for every node whose type is "n8n-nodes-base.code" and whose id
    is a key of the file mapping, after patching [parameters.jsCode] is
    exactly the wrapper template for the node's matched file name and the
    workflow slug: a [try] block that requires
    ['/data/js/workflows/<slug>/<filename>'] and returns the awaited call
    of its export on [{$input,$json,$items,$node,$env,helpers}], and a
    [catch] block that prepends [[extjs:<slug>/<filename>]] to the error's
    message and rethrows. *)
Theorem patched_node_has_wrapper
    paths workflow_slug data data' c i j d nid filename :
  patch_document (build_mapping paths) workflow_slug data = Ok (data', c) →
  node_at data i j = Some (JObj d) →
  dict_get "type" d = Some (JStr "n8n-nodes-base.code") →
  dict_get "id" d = Some (JStr nid) →
  build_mapping paths !! nid = Some filename →
  ∃ n', node_at data' i j = Some n'
        ∧ jsCode_of n' = Some (JStr (wrapper_template workflow_slug filename)).
Proof.
  intros Hrun Hat Ht%is_code_type_spec Hid%py_get_Some Hfn.
  destruct (patch_document_node_at _ _ _ _ _ _ _ _ Hrun Hat)
    as (n' & dp & ds & Hat' & Hstep).
  destruct (build_mapping_nonempty _ _ _ Hfn) as [Hne Hfne].
  destruct (node_step_mapped _ _ _ _ _ _ _ _ Hstep Ht Hid Hfn Hne Hfne)
    as (p & _ & _ & _ & ->).
  exists (JObj (with_jsCode (wrapper workflow_slug filename) p d)).
  split; [done|]. unfold jsCode_of, with_jsCode.
  by rewrite !dict_get_set_eq, wrapper_eq.
Qed.

Lemma patched_node_has_wrapper_witness :
  ∃ n', node_at sample_patched.1 0 0 = Some n'
        ∧ jsCode_of n' = Some (JStr (wrapper_template "demo" sample_file)).
Proof.
  apply (patched_node_has_wrapper sample_listing "demo" sample_document
           sample_patched.1 sample_patched.2 0 0 sample_mapped sample_id);
    vm_compute; reflexivity.
Defined.

(** C3: after the patcher has run over a document, [total_patched] plus
    [total_skipped] is the number of nodes of type "n8n-nodes-base.code"
    across all its workflows; a node of any other type changes neither
    counter. *)
Theorem counters_count_code_nodes mapping workflow_slug data data' c :
  patch_document mapping workflow_slug data = Ok (data', c) →
  total_patched c + total_skipped c = count_code_nodes data
  ∧ ∀ d c0, dict_get "type" d ≠ Some (JStr "n8n-nodes-base.code") →
            (patch_node mapping workflow_slug (JObj d) c0).2 = c0.
Proof.
  intros Hrun. split; [by eapply patch_document_count|].
  intros d c0 Ht. unfold patch_node.
  destruct (is_code_type d) eqn:E; [|done].
  by apply is_code_type_spec in E.
Qed.

Lemma counters_count_code_nodes_witness :
  1 + 1 = count_code_nodes sample_document
  ∧ ∀ d c0, dict_get "type" d ≠ Some (JStr "n8n-nodes-base.code") →
            (patch_node (build_mapping sample_listing) "demo" (JObj d) c0).2 = c0.
Proof.
  apply (counters_count_code_nodes (build_mapping sample_listing) "demo"
           sample_document sample_patched.1 sample_patched.2).
  vm_compute. reflexivity.
Defined.

(** C2: for every valid input document the patcher returns a document
    that is structurally identical to the input except at
    [parameters.jsCode] of code-type nodes: an array root stays an array
    and an object root an object, the workflows and their nodes are the
    same in number and order, every node that is not of the code type is
    unchanged, and every field of a code-type node other than
    [parameters.jsCode] is unchanged. *)
Theorem structural_fidelity mapping workflow_slug data :
  valid_document data = true →
  ∃ data' c, patch_document mapping workflow_slug data = Ok (data', c)
             ∧ document_frame data data'.
Proof.
  intros Hv.
  destruct (patch_document_total mapping workflow_slug data Hv)
    as (data' & c & Hrun).
  exists data', c. split; [done|]. by eapply patch_document_frame.
Qed.

Lemma structural_fidelity_witness :
  ∃ data' c,
    patch_document (build_mapping sample_listing) "demo" sample_document
    = Ok (data', c)
    ∧ document_frame sample_document data'.
Proof.
  apply (structural_fidelity (build_mapping sample_listing) "demo" sample_document).
  reflexivity.
Defined.

(** C4: a code-type node whose [id] is missing or empty (any false
    value), or whose [id] is not a key of the file mapping, is counted as
    skipped, is not counted as patched, and is left as it was: the loop
    body returns it unchanged, and it sits unchanged at its place in the
    document the patcher returns. *)
Theorem unmapped_node_skipped mapping workflow_slug d :
  dict_get "type" d = Some (JStr "n8n-nodes-base.code") →
  (dict_get "id" d = None
   ∨ (∃ v, dict_get "id" d = Some v ∧ truthy v = false)
   ∨ (∃ nid, dict_get "id" d = Some (JStr nid) ∧ mapping !! nid = None)) →
  (∀ c, patch_node mapping workflow_slug (JObj d) c
        = (Ok (JObj d), Counters (total_patched c) (total_skipped c + 1)))
  ∧ (∀ data data' c i j,
       patch_document mapping workflow_slug data = Ok (data', c) →
       node_at data i j = Some (JObj d) →
       node_at data' i j = Some (JObj d)).
Proof.
  intros Ht%is_code_type_spec Hid.
  assert (unmapped mapping (py_get "id" d)) as Hun.
  { unfold py_get.
    destruct Hid as [-> | [(v & -> & Hv) | (nid & -> & Hnid)]];
      [by left | by left | right; by left]. }
  split.
  - intros c.
    rewrite (node_step_run _ _ _ _ _ _ c (step_skip _ workflow_slug d Ht Hun)).
    unfold bump. do 2 f_equal. lia.
  - intros data data' c i j Hrun Hat.
    destruct (patch_document_node_at _ _ _ _ _ _ _ _ Hrun Hat)
      as (n' & dp & ds & Hat' & Hstep).
    by destruct (node_step_unmapped _ _ _ _ _ _ Hstep Ht Hun) as (-> & _).
Qed.

Lemma unmapped_node_skipped_witness :
  (∀ c, patch_node (build_mapping sample_listing) "demo" (JObj sample_unmapped) c
        = (Ok (JObj sample_unmapped),
           Counters (total_patched c) (total_skipped c + 1)))
  ∧ (∀ data data' c i j,
       patch_document (build_mapping sample_listing) "demo" data = Ok (data', c) →
       node_at data i j = Some (JObj sample_unmapped) →
       node_at data' i j = Some (JObj sample_unmapped)).
Proof.
  apply (unmapped_node_skipped (build_mapping sample_listing) "demo" sample_unmapped).
  - reflexivity.
  - right. right. exists "22222222-2222-2222-2222-222222222222".
    split; vm_compute; reflexivity.
Defined.

(** C10: a workflow object without a [nodes] key is treated as having no
    nodes: the loop body raises nothing, leaves both counters as they
    were, and the workflow sits unchanged at its place in the document
    that is written. *)
Theorem workflow_without_nodes mapping workflow_slug d :
  dict_get "nodes" d = None →
  (∀ c, patch_workflow mapping workflow_slug (JObj d) c = (Ok (JObj d), c))
  ∧ (∀ data data' c i,
       patch_document mapping workflow_slug data = Ok (data', c) →
       workflows data !! i = Some (JObj d) →
       workflows data' !! i = Some (JObj d)).
Proof.
  intros Hnone.
  assert (∀ c, patch_workflow mapping workflow_slug (JObj d) c = (Ok (JObj d), c))
    as Hbody by (intros c; unfold patch_workflow; by rewrite Hnone).
  split; [done|].
  intros data data' c i Hrun Hwf.
  destruct (patch_document_workflow_at _ _ _ _ _ _ _ Hrun Hwf)
    as (wf' & ci & ci' & Hwf' & Hstep).
  rewrite Hbody in Hstep. by injection Hstep as <- _.
Qed.

Lemma workflow_without_nodes_witness :
  (∀ c, patch_workflow (build_mapping sample_listing) "demo" (JObj sample_bare) c
        = (Ok (JObj sample_bare), c))
  ∧ (∀ data data' c i,
       patch_document (build_mapping sample_listing) "demo" data = Ok (data', c) →
       workflows data !! i = Some (JObj sample_bare) →
       workflows data' !! i = Some (JObj sample_bare)).
Proof.
  apply (workflow_without_nodes (build_mapping sample_listing) "demo" sample_bare).
  reflexivity.
Defined.

(** C5: the mapping built from the JS directory has, for each token [u],
    an entry exactly when the listing of [<js_dir>/*.js] (immediate
    children only, as glob lists them) holds a path whose base name ends
    with two underscores, a 36-character token [u] of hexadecimal digits
    and hyphens, and [.js]; the entry maps [u] to that base name; a path
    that does not match adds no entry; and when several listed paths
    encode [u], the entry is the base name of the one listed last. *)
Theorem mapping_builder_spec w js_dir u b :
  let paths := glob w (os_path_join js_dir "*.js") in
  Forall ends_js paths →
  build_mapping paths !! u = Some b ↔
  ∃ before p after,
    paths = before ++ p :: after
    ∧ b = os_path_basename p
    ∧ names_node_id b u
    ∧ ∀ q, q ∈ after → ¬ names_node_id (os_path_basename q) u.
Proof.
  intros paths Hjs. rewrite build_mapping_lookup.
  assert (∀ q, q ∈ paths →
            re_search (os_path_basename q) = Some u
            ↔ names_node_id (os_path_basename q) u) as Hiff.
  { intros q Hq. apply re_search_names, basename_ends_js.
    by eapply Forall_forall in Hjs. }
  split; intros (l1 & p & l2 & Hsplit & -> & Hp & Hafter);
    exists l1, p, l2; split_and!; try done.
  - apply Hiff; [|done]. rewrite Hsplit, elem_of_app. right. by left.
  - intros q Hq. rewrite <- Hiff; [by apply Hafter|].
    rewrite Hsplit, elem_of_app. right. by right.
  - apply Hiff; [|done]. rewrite Hsplit, elem_of_app. right. by left.
  - intros q Hq. rewrite Hiff; [by apply Hafter|].
    rewrite Hsplit, elem_of_app. right. by right.
Qed.

Lemma mapping_builder_spec_witness :
  build_mapping sample_listing !! sample_id = Some sample_file ↔
  ∃ before p after,
    sample_listing = before ++ p :: after
    ∧ sample_file = os_path_basename p
    ∧ names_node_id sample_file sample_id
    ∧ ∀ q, q ∈ after → ¬ names_node_id (os_path_basename q) sample_id.
Proof.
  apply (mapping_builder_spec (sample_world Malformed) "js" sample_id sample_file).
  repeat constructor.
  - exists "js/build-sql__11111111-1111-1111-1111-111111111111". reflexivity.
  - exists "js/readme". reflexivity.
Defined.

(** C7: unless exactly three arguments follow the script name, the
    program prints the usage message on the error stream and exits with
    status 1; a missing workflow file, and a missing JS directory, each
    make it print a message naming the path and exit with status 1. In
    all three cases nothing is globbed, parsed or written: the trace
    holds only the existence checks and the message. *)
Theorem bad_invocation_exits w argv :
  (length argv ≠ 4 →
   run w argv = (Raise (SystemExit 1), [EvStderr usage]))
  ∧ (∀ prog wf_path js_dir workflow_slug,
       argv = [prog; wf_path; js_dir; workflow_slug] →
       path_exists w wf_path = false →
       run w argv
       = (Raise (SystemExit 1),
          [EvExists wf_path; EvStderr ("Missing workflow json: " +:+ wf_path)]))
  ∧ (∀ prog wf_path js_dir workflow_slug,
       argv = [prog; wf_path; js_dir; workflow_slug] →
       path_exists w wf_path = true →
       path_isdir w js_dir = false →
       run w argv
       = (Raise (SystemExit 1),
          [EvExists wf_path; EvIsdir js_dir;
           EvStderr ("Missing js dir: " +:+ js_dir)])).
Proof.
  split_and!.
  - intros Hlen. by destruct argv as [|? [|? [|? [|? [|? ?]]]]].
  - intros prog wf_path js_dir workflow_slug -> Hwf.
    by rewrite run_eq, Hwf.
  - intros prog wf_path js_dir workflow_slug -> Hwf Hdir.
    by rewrite run_eq, Hwf, Hdir.
Qed.

Lemma bad_invocation_exits_witness :
  run empty_world ["patch_workflow_use_external_js.py"; "wf.json"]
  = (Raise (SystemExit 1), [EvStderr usage])
  ∧ run empty_world sample_argv
    = (Raise (SystemExit 1),
       [EvExists "wf.json"; EvStderr "Missing workflow json: wf.json"])
  ∧ run (sample_world Malformed)
      ["patch_workflow_use_external_js.py"; "wf.json"; "gone"; "demo"]
    = (Raise (SystemExit 1),
       [EvExists "wf.json"; EvIsdir "gone"; EvStderr "Missing js dir: gone"]).
Proof.
  split_and!.
  - apply (bad_invocation_exits empty_world
             ["patch_workflow_use_external_js.py"; "wf.json"]).
    simpl. lia.
  - apply (bad_invocation_exits empty_world sample_argv)
      with (prog := "patch_workflow_use_external_js.py") (js_dir := "js")
           (workflow_slug := "demo"); reflexivity.
  - apply (bad_invocation_exits (sample_world Malformed)
             ["patch_workflow_use_external_js.py"; "wf.json"; "gone"; "demo"])
      with (prog := "patch_workflow_use_external_js.py") (workflow_slug := "demo");
      reflexivity.
Defined.

(** C8: when the workflow file and the JS directory exist but no listed
    file matches the node-id pattern, the process prints the
    no-mapped-files message on the error stream and exits with status 1;
    the trace ends there, so nothing is parsed and no output file is
    written. *)
Theorem no_mapped_files_exits w prog wf_path js_dir workflow_slug :
  let pattern := os_path_join js_dir "*.js" in
  path_exists w wf_path = true →
  path_isdir w js_dir = true →
  Forall ends_js (glob w pattern) →
  (∀ p u, p ∈ glob w pattern → ¬ names_node_id (os_path_basename p) u) →
  run w [prog; wf_path; js_dir; workflow_slug]
  = (Raise (SystemExit 1),
     [EvExists wf_path; EvIsdir js_dir; EvGlob pattern;
      EvStderr ("No node-id mapped js files found in " +:+ js_dir)])
  ∧ written (run w [prog; wf_path; js_dir; workflow_slug]).2 = [].
Proof.
  intros pattern Hwf Hdir Hjs Hnone.
  assert (build_mapping (glob w pattern) = ∅) as Hempty.
  { apply build_mapping_empty. intros p Hp.
    destruct (re_search (os_path_basename p)) as [u|] eqn:Hu; [|done].
    destruct (Hnone p u Hp). apply re_search_names; [|done].
    apply basename_ends_js. by eapply Forall_forall in Hjs. }
  rewrite run_eq, Hwf, Hdir. cbn [negb]. fold pattern. rewrite Hempty.
  by rewrite bool_decide_eq_true_2.
Qed.

Lemma no_mapped_files_exits_witness :
  run (sample_world (Parsed sample_document))
    ["patch_workflow_use_external_js.py"; "wf.json"; "docs"; "demo"]
  = (Raise (SystemExit 1),
     [EvExists "wf.json"; EvIsdir "docs"; EvGlob "docs/*.js";
      EvStderr "No node-id mapped js files found in docs"])
  ∧ written (run (sample_world (Parsed sample_document))
               ["patch_workflow_use_external_js.py"; "wf.json"; "docs"; "demo"]).2
    = [].
Proof.
  apply (no_mapped_files_exits (sample_world (Parsed sample_document))
           "patch_workflow_use_external_js.py" "wf.json" "docs" "demo").
  - reflexivity.
  - reflexivity.
  - repeat constructor.
    + exists "docs/readme". reflexivity.
    + exists "docs/a__b". reflexivity.
  - intros p u Hp (pre & Heq & Hlen & _).
    apply (f_equal String.length) in Heq.
    rewrite !app_length_s, Hlen in Heq.
    simpl in Hp. rewrite !elem_of_cons in Hp.
    destruct Hp as [-> | [-> | Hp]]; [simpl in Heq; lia..|].
    inversion Hp.
Defined.

(** A run that completes went through every stage. *)
Lemma run_Ok w prog wf_path js_dir workflow_slug t :
  run w [prog; wf_path; js_dir; workflow_slug] = (Ok tt, t) →
  let pattern := os_path_join js_dir "*.js" in
  let mapping := build_mapping (glob w pattern) in
  ∃ data data' c,
    mapping ≠ ∅
    ∧ load w wf_path = Parsed data
    ∧ patch_document mapping workflow_slug data = Ok (data', c)
    ∧ t = [EvExists wf_path; EvIsdir js_dir; EvGlob pattern; EvLoad wf_path;
           EvMakedirs "tmp"; EvDump (out_path_of workflow_slug) data';
           EvStdout (report c);
           EvStdout ("Wrote: " +:+ out_path_of workflow_slug)].
Proof.
  rewrite run_eq. cbv zeta.
  destruct (path_exists w wf_path); [|done].
  destruct (path_isdir w js_dir); [|done]. cbn [negb].
  case_bool_decide as Hm; [done|].
  destruct (load w wf_path) as [| |data]; [done..|].
  destruct (patch_document _ _ data) as [[data' c]|e] eqn:Hrun; [|done].
  destruct (can_makedirs w "tmp" && can_write w _); [|done].
  intros [= <-]. by exists data, data', c.
Qed.

(** C6: the pipeline is idempotent. A completed run writes one document;
    a second run with the same listing of the JS directory and the same
    slug, on a workflow file that holds that document, completes, writes
    the same document to the same path and prints the same report. *)
Theorem rerun_idempotent w prog wf_path js_dir workflow_slug t :
  run w [prog; wf_path; js_dir; workflow_slug] = (Ok tt, t) →
  ∃ data1,
    written t = [(out_path_of workflow_slug, data1)]
    ∧ ∀ w' wf_path',
        glob w' (os_path_join js_dir "*.js") = glob w (os_path_join js_dir "*.js") →
        path_exists w' wf_path' = true →
        path_isdir w' js_dir = true →
        load w' wf_path' = Parsed data1 →
        can_makedirs w' "tmp" = true →
        can_write w' (out_path_of workflow_slug) = true →
        ∃ t', run w' [prog; wf_path'; js_dir; workflow_slug] = (Ok tt, t')
              ∧ written t' = [(out_path_of workflow_slug, data1)]
              ∧ stdout_of t' = stdout_of t.
Proof.
  intros (data & data1 & c & Hm & Hload & Hrun & ->)%run_Ok.
  exists data1. split; [done|].
  intros w' wf_path' Hglob Hwf Hdir Hload' Hmk Hwr.
  rewrite run_eq. cbv zeta.
  rewrite Hwf, Hdir, Hglob, Hload', Hmk, Hwr. cbn [negb andb].
  rewrite bool_decide_eq_false_2 by done.
  rewrite (patch_document_idem _ _ _ _ _ Hrun).
  eexists. split; [done|]. done.
Qed.

Lemma rerun_idempotent_witness :
  ∃ data1,
    written (run (sample_world (Parsed sample_document)) sample_argv).2
    = [(out_path_of "demo", data1)]
    ∧ ∀ w' wf_path',
        glob w' (os_path_join "js" "*.js")
        = glob (sample_world (Parsed sample_document)) (os_path_join "js" "*.js") →
        path_exists w' wf_path' = true →
        path_isdir w' "js" = true →
        load w' wf_path' = Parsed data1 →
        can_makedirs w' "tmp" = true →
        can_write w' (out_path_of "demo") = true →
        ∃ t', run w' ["patch_workflow_use_external_js.py"; wf_path'; "js"; "demo"]
              = (Ok tt, t')
              ∧ written t' = [(out_path_of "demo", data1)]
              ∧ stdout_of t'
                = stdout_of (run (sample_world (Parsed sample_document)) sample_argv).2.
Proof.
  apply (rerun_idempotent (sample_world (Parsed sample_document))
           "patch_workflow_use_external_js.py" "wf.json" "js" "demo").
  vm_compute. reflexivity.
Defined.

(** C9 fails as stated: on a malformed workflow file the error stream
    does not carry a one-line diagnostic. *)
Lemma malformed_json_not_one_line :
  load (sample_world Malformed) "wf.json" = Malformed
  ∧ ¬ ∃ msg,
        stderr_of (run (sample_world Malformed) sample_argv) = [Line msg]
        ∧ exit_status (run (sample_world Malformed) sample_argv).1 ≠ 0%Z.
Proof.
  split; [reflexivity|]. intros (msg & Herr & _).
  vm_compute in Herr. discriminate Herr.
Qed.

(** C9, amended: when the workflow file is malformed, [json.load]'s
    exception is not caught. The process ends with exit status 1 and the
    interpreter's traceback of the [JSONDecodeError] on the error stream;
    the script prints no line of its own, writes no file and reports
    nothing on standard output. *)
Theorem malformed_json_traceback w prog wf_path js_dir workflow_slug :
  path_exists w wf_path = true →
  path_isdir w js_dir = true →
  build_mapping (glob w (os_path_join js_dir "*.js")) ≠ ∅ →
  load w wf_path = Malformed →
  let r := run w [prog; wf_path; js_dir; workflow_slug] in
  r.1 = Raise JSONDecodeError
  ∧ exit_status r.1 = 1%Z
  ∧ stderr_of r = [Traceback JSONDecodeError]
  ∧ written r.2 = []
  ∧ stdout_of r.2 = [].
Proof.
  intros Hwf Hdir Hm Hload r. subst r.
  rewrite run_eq. cbv zeta. rewrite Hwf, Hdir, Hload. cbn [negb].
  by rewrite bool_decide_eq_false_2.
Qed.

Lemma malformed_json_traceback_witness :
  let r := run (sample_world Malformed) sample_argv in
  r.1 = Raise JSONDecodeError
  ∧ exit_status r.1 = 1%Z
  ∧ stderr_of r = [Traceback JSONDecodeError]
  ∧ written r.2 = []
  ∧ stdout_of r.2 = [].
Proof.
  apply (malformed_json_traceback (sample_world Malformed)
           "patch_workflow_use_external_js.py" "wf.json" "js" "demo").
  - reflexivity.
  - reflexivity.
  - intros H. apply (f_equal (λ m : gmap string string, m !! sample_id)) in H.
    vm_compute in H. discriminate H.
  - reflexivity.
Defined.

(** * Further properties of the script *)

(** ** The search, exactly *)

Lemma re_search_complete_nl pre u nl :
  token u → nl = "" ∨ nl = newline →
  re_search (pre +:+ "__" +:+ u +:+ ".js" +:+ nl) = Some u.
Proof.
  intros Ht Hnl. induction pre as [|c pre IH]; rewrite re_search_eq.
  - assert (match_here ("" +:+ "__" +:+ u +:+ ".js" +:+ nl) = Some u) as ->; [|done].
    apply match_here_Some. split; [done|]. by exists nl.
  - destruct (match_here _) as [t|] eqn:Hm; [|by rewrite app_cons].
    exfalso. apply match_here_Some in Hm as ([Hlen _] & nl' & Hnl' & Hs).
    pose proof (f_equal String.length Hs) as HL.
    rewrite app_cons in HL. cbn [String.length] in HL.
    rewrite !app_length_s, Hlen, (proj1 Ht) in HL.
    destruct Hnl as [-> | ->], Hnl' as [-> | ->]; cbn in HL; try lia.
    revert Hs. rewrite app_nil_r_s, <- !app_assoc_s. apply js_not_newline.
Qed.

(** X1: [re.search] with the pattern of the mapping builder finds a node
    id in a name exactly when the name is some prefix, two underscores, a
    36-character token of hexadecimal digits and hyphens, [.js], and then
    nothing or one final newline; the id found is that token. *)
Theorem re_search_spec s u :
  re_search s = Some u ↔
  token u ∧ ∃ pre nl, (nl = "" ∨ nl = newline)
                      ∧ s = pre +:+ "__" +:+ u +:+ ".js" +:+ nl.
Proof.
  split; [apply re_search_Some|].
  intros (Ht & pre & nl & Hnl & ->). by apply re_search_complete_nl.
Qed.

(** ** Base names *)

Lemma basename_go_no_slash p acc :
  has_slash acc = false ∨ has_slash p = true →
  has_slash (basename_go acc p) = false.
Proof.
  revert acc. induction p as [|c p IH]; intros acc H; cbn [basename_go].
  - by destruct H.
  - cbn [has_slash] in H. destruct (is_slash c) eqn:Hc.
    + apply IH. destruct (has_slash p); auto.
    + apply IH. destruct H as [H|H]; auto.
Qed.

Lemma basename_no_slash p : has_slash (os_path_basename p) = false.
Proof.
  apply basename_go_no_slash. destruct (has_slash p); auto.
Qed.

Lemma basename_go_id p acc : has_slash p = false → basename_go acc p = acc.
Proof.
  revert acc. induction p as [|c p IH]; intros acc; cbn [basename_go has_slash]; [done|].
  intros [-> Hp]%orb_false_iff. by apply IH.
Qed.

Lemma basename_idem p :
  os_path_basename (os_path_basename p) = os_path_basename p.
Proof. apply basename_go_id, basename_no_slash. Qed.

(** ** The mapping *)

(** X2: every entry of the mapping comes from a listed path: its key is a
    36-character token of hexadecimal digits and hyphens, and its value
    is the base name of that path, holds no directory separator, and
    ends with two underscores, the key and [.js] (up to a final
    newline). *)
Theorem mapping_entries_well_formed paths u b :
  build_mapping paths !! u = Some b →
  token u
  ∧ has_slash b = false
  ∧ (∃ p, p ∈ paths ∧ b = os_path_basename p)
  ∧ ∃ pre nl, (nl = "" ∨ nl = newline) ∧ b = pre +:+ "__" +:+ u +:+ ".js" +:+ nl.
Proof.
  intros (l1 & p & l2 & -> & -> & Hp & _)%build_mapping_lookup.
  apply re_search_Some in Hp as (Ht & Hform).
  split_and!; try done.
  - apply basename_no_slash.
  - exists p. split; [|done]. apply elem_of_app. right. by left.
Qed.

Lemma mapping_entries_well_formed_witness :
  token sample_id
  ∧ has_slash sample_file = false
  ∧ (∃ p, p ∈ sample_listing ∧ sample_file = os_path_basename p)
  ∧ ∃ pre nl, (nl = "" ∨ nl = newline)
              ∧ sample_file = pre +:+ "__" +:+ sample_id +:+ ".js" +:+ nl.
Proof.
  apply (mapping_entries_well_formed sample_listing sample_id sample_file).
  vm_compute. reflexivity.
Defined.

Lemma mapping_step_basename m p :
  mapping_step m (os_path_basename p) = mapping_step m p.
Proof. unfold mapping_step. by rewrite basename_idem. Qed.

(** X3: the mapping depends on the listed paths only through their base
    names, so it does not matter how the JS directory is spelled. *)
Theorem mapping_ignores_directories paths :
  build_mapping (os_path_basename <$> paths) = build_mapping paths.
Proof.
  unfold build_mapping. generalize (∅ : gmap string string).
  induction paths as [|p paths IH]; intros m; [done|].
  rewrite fmap_cons. cbn [foldl]. by rewrite mapping_step_basename, IH.
Qed.

Lemma build_mapping_is_Some paths p u :
  p ∈ paths → re_search (os_path_basename p) = Some u →
  is_Some (build_mapping paths !! u).
Proof.
  induction paths as [|x l IH] using rev_ind; [by intros ?%elem_of_nil|].
  rewrite build_mapping_snoc. unfold mapping_step.
  intros [Hp | ->%list_elem_of_singleton]%elem_of_app Hu.
  - destruct (re_search (os_path_basename x)) as [v|]; [|by apply IH].
    destruct (decide (v = u)) as [->|Hne].
    + rewrite lookup_insert_eq. by eexists.
    + rewrite lookup_insert_ne by done. by apply IH.
  - rewrite Hu, lookup_insert_eq. by eexists.
Qed.

(** When no two listed files with different base names carry the same
    id, an entry is any listed file that carries the id. *)
Lemma build_mapping_lookup_unique paths u b :
  (∀ p q v, p ∈ paths → q ∈ paths →
     re_search (os_path_basename p) = Some v →
     re_search (os_path_basename q) = Some v →
     os_path_basename p = os_path_basename q) →
  build_mapping paths !! u = Some b ↔
  ∃ p, p ∈ paths ∧ b = os_path_basename p ∧ re_search b = Some u.
Proof.
  intros Huniq. split.
  - intros (l1 & p & l2 & -> & -> & Hp & _)%build_mapping_lookup.
    exists p. split; [|done]. apply elem_of_app. right. by left.
  - intros (p & Hp & -> & Hu).
    destruct (build_mapping_is_Some _ _ _ Hp Hu) as [b' Hb'].
    rewrite Hb'. f_equal.
    apply build_mapping_lookup in Hb' as (l1 & q & l2 & Hsplit & -> & Hq & _).
    apply (Huniq q p u); try done.
    rewrite Hsplit. apply elem_of_app. right. by left.
Qed.

(** X4: when no two listed files with different names carry the same
    node id, the mapping does not depend on the order of the directory
    listing. *)
Theorem mapping_order_irrelevant paths paths' :
  paths ≡ₚ paths' →
  (∀ p q v, p ∈ paths → q ∈ paths →
     re_search (os_path_basename p) = Some v →
     re_search (os_path_basename q) = Some v →
     os_path_basename p = os_path_basename q) →
  build_mapping paths = build_mapping paths'.
Proof.
  intros Hperm Huniq. apply map_eq. intros u. apply option_eq. intros b.
  assert (∀ p, p ∈ paths ↔ p ∈ paths') as Hin
    by (intros p; by rewrite Hperm).
  rewrite !build_mapping_lookup_unique.
  - split; intros (p & Hp & H); exists p; (split; [by apply Hin|done]).
  - intros p q v Hp Hq. apply Huniq; by apply Hin.
  - done.
Qed.

Lemma mapping_order_irrelevant_witness :
  build_mapping two_scripts = build_mapping (reverse two_scripts).
Proof.
  apply (mapping_order_irrelevant two_scripts (reverse two_scripts)).
  - symmetry. apply reverse_Permutation.
  - intros p q v Hp Hq. unfold two_scripts in Hp, Hq.
    rewrite !elem_of_cons in Hp, Hq.
    destruct Hp as [-> | [-> | Hp]]; [| |inversion Hp];
      (destruct Hq as [-> | [-> | Hq]]; [| |inversion Hq]);
      vm_compute; congruence.
Defined.

(** ** The two counters, separately *)

Section patched_count.
Context (paths : list string) (workflow_slug : string).

Lemma node_step_patched n n' dp ds :
  node_step (build_mapping paths) workflow_slug n n' dp ds →
  dp = (if mapped_node (build_mapping paths) n then 1 else 0).
Proof.
  intros [d Ht | d Ht Hid | d nid fn p Ht Hid Hne Hfn Hfne Hp];
    cbn [mapped_node]; rewrite Ht; cbn [andb]; [done| |].
  - destruct (py_get "id" d) as [| | | |nid| |]; try done.
    case_bool_decide as Hsome; [|done]. destruct Hsome as [fn Hfn].
    destruct (build_mapping_nonempty _ _ _ Hfn) as [Hne Hfne].
    destruct Hid as [Hid | [Hid | Hid]]; [|congruence..].
    simpl in Hid. by apply negb_false_iff, String.eqb_eq in Hid.
  - rewrite Hid, Hfn. by rewrite bool_decide_eq_true_2.
Qed.

Lemma patch_nodes_patched ns ns' c c' :
  for_each (patch_node (build_mapping paths) workflow_slug) ns c = (Ok ns', c') →
  total_patched c'
  = total_patched c + length (filter (mapped_node (build_mapping paths)) ns).
Proof.
  revert ns' c. induction ns as [|n ns IH]; intros ns' c.
  - intros [= _ <-]. simpl. lia.
  - rewrite for_each_cons.
    destruct (patch_node _ _ n c) as [[y|e] c1] eqn:Hn; [|done].
    destruct (for_each _ ns c1) as [[ys|e] c2] eqn:Hns; [|done].
    intros [= _ <-]. rewrite (IH _ _ Hns).
    apply patch_node_Ok in Hn as (dp & ds & Hstep%node_step_patched & ->).
    rewrite filter_cons. destruct (mapped_node _ n); simpl in *; lia.
Qed.

Lemma patch_workflows_patched wfs wfs' c c' :
  for_each (patch_workflow (build_mapping paths) workflow_slug) wfs c
  = (Ok wfs', c') →
  total_patched c'
  = total_patched c
    + sum_list ((λ wf, length (filter (mapped_node (build_mapping paths))
                                 (nodes_of wf))) <$> wfs).
Proof.
  revert wfs' c. induction wfs as [|wf wfs IH]; intros wfs' c.
  - intros [= _ <-]. simpl. lia.
  - rewrite for_each_cons.
    destruct (patch_workflow _ _ wf c) as [[y|e] c1] eqn:Hwf; [|done].
    destruct (for_each _ wfs c1) as [[ys|e] c2] eqn:Hwfs; [|done].
    intros [= _ <-]. rewrite (IH _ _ Hwfs).
    apply patch_workflow_nodes, patch_nodes_patched in Hwf.
    rewrite fmap_cons. simpl. lia.
Qed.

End patched_count.

(** X5: after the patch loop, [total_patched] is the number of code-type
    nodes whose id is a string key of the mapping, and [total_skipped]
    is the number of the other code-type nodes. *)
Theorem counters_exact paths workflow_slug data data' c :
  patch_document (build_mapping paths) workflow_slug data = Ok (data', c) →
  total_patched c = count_mapped (build_mapping paths) data
  ∧ total_skipped c
    = count_code_nodes data - count_mapped (build_mapping paths) data.
Proof.
  intros Hrun. pose proof (patch_document_count _ _ _ _ _ Hrun) as Hsum.
  apply patch_document_Ok in Hrun as [Hrun%patch_workflows_patched _].
  unfold count_mapped. simpl in Hrun. lia.
Qed.

Lemma counters_exact_witness :
  total_patched sample_patched.2 = count_mapped (build_mapping sample_listing) sample_document
  ∧ total_skipped sample_patched.2
    = count_code_nodes sample_document
      - count_mapped (build_mapping sample_listing) sample_document.
Proof.
  apply (counters_exact sample_listing "demo" sample_document sample_patched.1).
  vm_compute. reflexivity.
Defined.

(** ** Patching again with another slug *)

(** Two loops over the same items, the second also over the results of
    the first: when the second body does to a result of the first what
    it does to the item itself, so do the loops. *)
Lemma for_each_rerun {S A} (body1 body2 : A → M S A) xs ys s s' :
  (∀ x y si si', body1 x si = (Ok y, si') →
     ∃ z, body2 x si = (Ok z, si') ∧ body2 y si = (Ok z, si')) →
  for_each body1 xs s = (Ok ys, s') →
  ∃ zs, for_each body2 xs s = (Ok zs, s') ∧ for_each body2 ys s = (Ok zs, s').
Proof.
  intros Hbody. revert ys s. induction xs as [|x xs IH]; intros ys s.
  - intros [= <- <-]. by exists [].
  - rewrite for_each_cons.
    destruct (body1 x s) as [[y|e] s1] eqn:Hx; [|done].
    destruct (for_each body1 xs s1) as [[ys1|e] s2] eqn:Hxs; [|done].
    intros [= <- <-].
    destruct (Hbody _ _ _ _ Hx) as (z & Hz1 & Hz2).
    destruct (IH _ _ Hxs) as (zs & Hzs1 & Hzs2).
    exists (z :: zs). by rewrite !for_each_cons, Hz1, Hz2, Hzs1, Hzs2.
Qed.

Section other_slug.
Context (mapping : gmap string string) (slug1 slug2 : string).

Lemma node_step_rerun n n1 dp ds :
  node_step mapping slug1 n n1 dp ds →
  ∃ n2, node_step mapping slug2 n n2 dp ds
        ∧ node_step mapping slug2 n1 n2 dp ds.
Proof.
  intros [d Ht | d Ht Hid | d nid fn p Ht Hid Hne Hfn Hfne Hp].
  - exists (JObj d). by split; constructor.
  - exists (JObj d). by split; constructor.
  - set (w1 := wrapper slug1 fn). set (w2 := wrapper slug2 fn).
    exists (JObj (with_jsCode w2 p d)).
    split; [by apply (step_patch _ _ d nid fn)|].
    assert (with_jsCode w2 p d
            = with_jsCode w2 (dict_set "jsCode" (JStr w1) p) (with_jsCode w1 p d))
      as -> by (unfold with_jsCode; by rewrite !dict_set_set).
    apply (step_patch _ _ (with_jsCode w1 p d) nid fn); try done.
    + unfold is_code_type, with_jsCode in *. by rewrite py_get_set_ne.
    + unfold with_jsCode. by rewrite py_get_set_ne.
    + apply params_of_with_jsCode.
Qed.

Lemma patch_node_rerun n n1 c c' :
  patch_node mapping slug1 n c = (Ok n1, c') →
  ∃ n2, patch_node mapping slug2 n c = (Ok n2, c')
        ∧ patch_node mapping slug2 n1 c = (Ok n2, c').
Proof.
  intros (dp & ds & Hstep & ->)%patch_node_Ok.
  destruct (node_step_rerun _ _ _ _ Hstep) as (n2 & H1 & H2).
  exists n2. split; by apply node_step_run.
Qed.

Lemma patch_workflow_rerun wf wf1 c c' :
  patch_workflow mapping slug1 wf c = (Ok wf1, c') →
  ∃ wf2, patch_workflow mapping slug2 wf c = (Ok wf2, c')
         ∧ patch_workflow mapping slug2 wf1 c = (Ok wf2, c').
Proof.
  destruct wf as [| | | | |?|d]; try done. unfold patch_workflow at 1.
  destruct (dict_get "nodes" d) as [v|] eqn:Hv.
  2:{ intros [= <- <-]. exists (JObj d). unfold patch_workflow. by rewrite Hv. }
  destruct v as [| | | |s|ns|items]; try done.
  - destruct s; [|done]. intros [= <- <-]. exists (JObj d).
    unfold patch_workflow. by rewrite Hv.
  - rewrite bind_run.
    destruct (for_each _ ns c) as [[ns1|e] c1] eqn:Hns; [|done].
    intros [= <- <-].
    destruct (for_each_rerun _ _ _ _ _ _ patch_node_rerun Hns)
      as (ns2 & H1 & H2).
    exists (JObj (dict_set "nodes" (JArr ns2) d)). unfold patch_workflow.
    rewrite Hv, dict_get_set_eq, !bind_run, H1, H2. cbn.
    by rewrite dict_set_set.
  - destruct items; [|done]. intros [= <- <-]. exists (JObj d).
    unfold patch_workflow. by rewrite Hv.
Qed.

End other_slug.

(** X6: patching a patched document again with the same mapping and
    another slug gives what patching the original with that slug gives,
    document and counters alike: only the last slug shows. *)
Theorem repatch_with_other_slug mapping slug1 slug2 data data1 c :
  patch_document mapping slug1 data = Ok (data1, c) →
  ∃ data2, patch_document mapping slug2 data = Ok (data2, c)
           ∧ patch_document mapping slug2 data1 = Ok (data2, c).
Proof.
  intros Hrun. pose proof Hrun as [Hwfs Hdata1]%patch_document_Ok.
  destruct (for_each_rerun _ _ _ _ _ _
              (patch_workflow_rerun mapping slug1 slug2) Hwfs)
    as (wfs2 & H1 & H2).
  exists (rewrap data wfs2). unfold patch_document. rewrite H1, H2.
  split; [done|]. do 2 f_equal.
  apply patch_document_frame in Hrun.
  apply for_each_Forall2 in H1.
  destruct data as [| | | | |wfs|d];
    try (by destruct Hrun as (? & ? & ? & _)).
  - by destruct Hrun as (wfs' & -> & _).
  - destruct Hrun as (? & d' & _ & -> & _). cbn [workflows] in H1.
    inversion H1 as [|? z ? ? _ Hnil]. by inversion Hnil.
Qed.

Lemma repatch_with_other_slug_witness :
  ∃ data2,
    patch_document (build_mapping sample_listing) "other" sample_document
    = Ok (data2, sample_patched.2)
    ∧ patch_document (build_mapping sample_listing) "other" sample_patched.1
      = Ok (data2, sample_patched.2).
Proof.
  apply (repatch_with_other_slug (build_mapping sample_listing) "demo" "other"
           sample_document sample_patched.1 sample_patched.2).
  vm_compute. reflexivity.
Defined.

(** ** When the patch loop raises *)

(** A loop completes exactly when its body completes on every item,
    provided that does not depend on the state. *)
Lemma for_each_Ok_iff {S A B} (body : A → M S B) (ok : A → bool) :
  (∀ x s, ok x = true ↔ ∃ y s', body x s = (Ok y, s')) →
  ∀ xs s, forallb ok xs = true ↔ ∃ ys s', for_each body xs s = (Ok ys, s').
Proof.
  intros Hok xs. induction xs as [|x xs IH]; intros s.
  - split; [by exists [], s|done].
  - cbn [forallb]. rewrite andb_true_iff, for_each_cons. split.
    + intros [(y & s1 & ->)%(Hok x s) (ys & s2 & ->)%(IH s1)]. by eexists _, _.
    + destruct (body x s) as [[y|e] s1] eqn:Hx; [|by intros (? & ? & ?)].
      destruct (for_each body xs s1) as [[ys|e] s2] eqn:Hxs;
        [|by intros (? & ? & ?)].
      intros _. split; [apply (Hok x s)|apply (IH s1)]; eauto.
Qed.

(** An exception that leaves a loop was raised by its body. *)
Lemma for_each_Raise {S A B} (body : A → M S B) xs s e s' :
  for_each body xs s = (Raise e, s') →
  ∃ x si si', x ∈ xs ∧ body x si = (Raise e, si').
Proof.
  revert s. induction xs as [|x xs IH]; intros s; [done|].
  rewrite for_each_cons.
  destruct (body x s) as [[y|e1] s1] eqn:Hx.
  - destruct (for_each body xs s1) as [[ys|e2] s2] eqn:Hxs; [done|].
    intros [= <- <-]. destruct (IH _ Hxs) as (x' & si & si' & Hin & Hr).
    exists x', si, si'. split; [by right|done].
  - intros [= <- <-]. exists x, s, s1. split; [by left|done].
Qed.

Section raising.
Context (mapping : gmap string string) (workflow_slug : string).

Lemma patchable_node_step n :
  patchable_node mapping n = true ↔
  ∃ n' dp ds, node_step mapping workflow_slug n n' dp ds.
Proof.
  split.
  - destruct n as [| | | | |?|d]; try done. cbn [patchable_node].
    destruct (is_code_type d) eqn:Ht;
      [|intros _; eexists _, _, _; by apply step_other].
    destruct (truthy (py_get "id" d)) eqn:Htr;
      [|intros _; eexists _, _, _; apply step_skip; [done|by left]].
    cbn [negb orb].
    destruct (py_get "id" d) as [| | | |nid| |] eqn:Hid; try done;
      try (intros _; eexists _, _, _; apply step_skip;
           [done|right; by rewrite Hid]).
    destruct (mapping !! nid) as [fn|] eqn:Hfn;
      [|intros _; eexists _, _, _; apply step_skip;
        [done|right; rewrite Hid; by left]].
    destruct (String.eqb_spec fn "") as [->|Hne];
      [intros _; eexists _, _, _; apply step_skip;
       [done|right; rewrite Hid; by right]|].
    cbn [orb]. intros [p Hp]%bool_decide_eq_true.
    eexists _, _, _. apply (step_patch _ _ d nid fn p); try done.
    by intros ->.
  - intros (n' & dp & ds & [d Ht | d Ht Hid | d nid fn p Ht Hid Hne Hfn Hfne Hp]);
      cbn [patchable_node]; rewrite Ht; cbn [negb orb]; [done| |].
    + destruct Hid as [-> | Hid]; [done|].
      destruct (truthy _); [|done]. cbn [negb orb].
      destruct (py_get "id" d); try done.
      by destruct Hid as [-> | ->].
    + rewrite Hid, Hfn, Hp. rewrite bool_decide_eq_true_2 by by eexists.
      by rewrite !orb_true_r.
Qed.

Lemma patchable_node_Ok n c :
  patchable_node mapping n = true ↔
  ∃ n' c', patch_node mapping workflow_slug n c = (Ok n', c').
Proof.
  rewrite patchable_node_step. split.
  - intros (n' & dp & ds & Hstep). eexists _, _. by apply node_step_run.
  - intros (n' & c' & (dp & ds & Hstep & _)%patch_node_Ok). eauto.
Qed.

Lemma patchable_workflow_Ok wf c :
  patchable_workflow mapping wf = true ↔
  ∃ wf' c', patch_workflow mapping workflow_slug wf c = (Ok wf', c').
Proof.
  destruct wf as [| | | | |?|d]; try (split; [done|by intros (? & ? & ?)]).
  cbn [patchable_workflow patch_workflow].
  destruct (dict_get "nodes" d) as [v|]; [|split; [by eexists _, _|done]].
  destruct v as [| | | |s|ns|items];
    try (split; [done|by intros (? & ? & ?)]).
  - destruct s; [split; [by eexists _, _|done]|].
    split; [done|by intros (? & ? & ?)].
  - rewrite (for_each_Ok_iff (patch_node mapping workflow_slug)
               (patchable_node mapping) patchable_node_Ok ns c).
    rewrite bind_run. split.
    + intros (ns' & c' & ->). by eexists _, _.
    + destruct (for_each _ ns c) as [[ns'|e] c']; [eauto|by intros (? & ? & ?)].
  - destruct items; [split; [by eexists _, _|done]|].
    split; [done|by intros (? & ? & ?)].
Qed.

Lemma patch_node_Raise n c e c' :
  patch_node mapping workflow_slug n c = (Raise e, c') →
  e = AttributeError ∨ e = TypeError.
Proof.
  destruct n as [| | | | |?|d]; try (intros [= <- _]; by left).
  unfold patch_node. destruct (is_code_type d); cbn [negb]; [|done].
  destruct (truthy _); cbn [negb]; [|by rewrite skip_run].
  rewrite bind_run.
  destruct (py_get "id" d) as [| | | |nid| |];
    cbn -[incr_skipped incr_patched set_jsCode];
    try (by rewrite skip_run); try (intros [= <- _]; by right).
  destruct (mapping !! nid) as [fn|]; [|by rewrite skip_run].
  destruct (String.eqb fn ""); [by rewrite skip_run|].
  rewrite bind_run, set_jsCode_run.
  destruct (params_of d); [by rewrite patched_run|].
  intros [= <- _]. by right.
Qed.

Lemma patch_workflow_Raise wf c e c' :
  patch_workflow mapping workflow_slug wf c = (Raise e, c') →
  e = AttributeError ∨ e = TypeError.
Proof.
  assert (Hloop : ∀ A (k : list json → M counters A) items,
            (∀ ys s, ∃ a, k ys s = (Ok a, s)) →
            (for_each (patch_node mapping workflow_slug) items ≫= k) c
            = (Raise e, c') →
            e = AttributeError ∨ e = TypeError).
  { intros A k items Hk. rewrite bind_run.
    destruct (for_each _ items c) as [[ys|e1] c1] eqn:Hrun.
    - by destruct (Hk ys c1) as (a & ->).
    - intros [= <- _].
      apply for_each_Raise in Hrun as (x & si & si' & _ & Hx).
      by eapply patch_node_Raise. }
  destruct wf as [| | | | |?|d]; try (intros [= <- _]; by left).
  unfold patch_workflow. destruct (dict_get "nodes" d) as [v|]; [|done].
  destruct v as [| | | |s|ns|items]; try (intros [= <- _]; by right).
  - rewrite bind_run. cbn [py_iter mret M_ret]. apply Hloop. by eexists.
  - apply Hloop. by eexists.
  - rewrite bind_run. cbn [py_iter mret M_ret]. apply Hloop. by eexists.
Qed.

End raising.

(** X7: the patch loop completes exactly on the documents in which every
    workflow is an object whose [nodes] is absent, an empty dict or
    string, or an array of objects, and in which every code-type node
    with a true [id] has a hashable [id] and, when that id is mapped, a
    [parameters] that is absent or a dict. *)
Theorem patchable_exact mapping workflow_slug data :
  patchable mapping data = true ↔
  ∃ data' c, patch_document mapping workflow_slug data = Ok (data', c).
Proof.
  unfold patchable, patch_document.
  rewrite (for_each_Ok_iff (patch_workflow mapping workflow_slug)
             (patchable_workflow mapping)
             (patchable_workflow_Ok mapping workflow_slug)
             (workflows data) (Counters 0 0)).
  split.
  - intros (wfs & c & ->). by eexists _, _.
  - destruct (for_each _ _ _) as [[wfs|e] c]; [eauto|by intros (? & ? & ?)].
Qed.

Lemma patch_document_Raise mapping workflow_slug data e :
  patch_document mapping workflow_slug data = Raise e →
  e = AttributeError ∨ e = TypeError.
Proof.
  unfold patch_document.
  destruct (for_each _ _ _) as [[wfs|e1] c] eqn:Hrun; [done|].
  intros [= <-]. apply for_each_Raise in Hrun as (wf & si & si' & _ & Hwf).
  by eapply patch_workflow_Raise.
Qed.

(** X8: when the patch loop raises, the exception is an [AttributeError]
    (a workflow or a node that is not an object) or a [TypeError]
    ([nodes] that cannot be iterated, an unhashable [id], a
    [parameters] that is not a dict); it never exits by itself. *)
Theorem patch_raises_only mapping workflow_slug data e :
  patch_document mapping workflow_slug data = Raise e →
  e = AttributeError ∨ e = TypeError.
Proof. apply patch_document_Raise. Qed.

Lemma patch_raises_only_witness :
  TypeError = AttributeError ∨ TypeError = TypeError.
Proof.
  apply (patch_raises_only (build_mapping sample_listing) "demo"
           (JObj [("nodes", JArr [JObj sample_bad_parameters])])).
  vm_compute. reflexivity.
Defined.

(** ** Nodes that abort the run, and odd ids that do not *)

(** A node on which the loop body raises makes the whole loop raise. *)
Lemma node_raises_aborts mapping workflow_slug data i j n e0 :
  node_at data i j = Some n →
  patch_node mapping workflow_slug n (Counters 0 0) = (Raise e0, Counters 0 0) →
  ∃ e, patch_document mapping workflow_slug data = Raise e.
Proof.
  intros Hat Hraise.
  destruct (patch_document mapping workflow_slug data) as [[data' c]|e] eqn:Hrun;
    [|by exists e].
  destruct (patch_document_node_at _ _ _ _ _ _ _ _ Hrun Hat)
    as (n' & dp & ds & _ & Hstep).
  by rewrite (node_step_run _ _ _ _ _ _ (Counters 0 0) Hstep) in Hraise.
Qed.

(** X9: on a code-type node whose id is mapped and whose [parameters] is
    present but not a dict, the loop body raises [TypeError] before it
    counts the node, and a document holding such a node is not patched:
    the patch loop raises. *)
Theorem bad_parameters_abort paths workflow_slug data i j d nid fn v :
  node_at data i j = Some (JObj d) →
  dict_get "type" d = Some (JStr "n8n-nodes-base.code") →
  dict_get "id" d = Some (JStr nid) →
  build_mapping paths !! nid = Some fn →
  dict_get "parameters" d = Some v →
  (∀ p, v ≠ JObj p) →
  (∀ c, patch_node (build_mapping paths) workflow_slug (JObj d) c
        = (Raise TypeError, c))
  ∧ ∃ e, patch_document (build_mapping paths) workflow_slug data = Raise e.
Proof.
  intros Hat Ht%is_code_type_spec Hid%py_get_Some Hfn Hv Hnot.
  destruct (build_mapping_nonempty _ _ _ Hfn) as [Hne Hfne].
  assert (∀ c, patch_node (build_mapping paths) workflow_slug (JObj d) c
               = (Raise TypeError, c)) as Hbody.
  { intros c. unfold patch_node. rewrite Ht, Hid. cbn [negb truthy].
    apply String.eqb_neq in Hne as ->. cbn [negb].
    rewrite bind_run. cbn -[set_jsCode incr_patched]. rewrite Hfn.
    apply String.eqb_neq in Hfne as ->.
    rewrite bind_run, set_jsCode_run. unfold params_of. rewrite Hv.
    destruct v; try done. by destruct (Hnot fields). }
  split; [done|]. by eapply node_raises_aborts.
Qed.

Lemma bad_parameters_abort_witness :
  (∀ c, patch_node (build_mapping sample_listing) "demo"
          (JObj sample_bad_parameters) c
        = (Raise TypeError, c))
  ∧ ∃ e, patch_document (build_mapping sample_listing) "demo"
           (JObj [("nodes", JArr [JObj sample_bad_parameters])])
         = Raise e.
Proof.
  apply (bad_parameters_abort sample_listing "demo"
           (JObj [("nodes", JArr [JObj sample_bad_parameters])]) 0 0
           sample_bad_parameters sample_id sample_file (JArr []));
    try (vm_compute; reflexivity).
  intros p H. discriminate H.
Defined.

(** X10: on a code-type node whose [id] is a non-empty array or object
    the lookup in the mapping raises [TypeError] (the id is unhashable),
    whatever the mapping holds, and a document holding such a node is
    not patched. *)
Theorem unhashable_id_aborts mapping workflow_slug data i j d v :
  node_at data i j = Some (JObj d) →
  dict_get "type" d = Some (JStr "n8n-nodes-base.code") →
  dict_get "id" d = Some v →
  ((∃ x l, v = JArr (x :: l)) ∨ (∃ x l, v = JObj (x :: l))) →
  (∀ c, patch_node mapping workflow_slug (JObj d) c = (Raise TypeError, c))
  ∧ ∃ e, patch_document mapping workflow_slug data = Raise e.
Proof.
  intros Hat Ht%is_code_type_spec Hid%py_get_Some Hv.
  assert (∀ c, patch_node mapping workflow_slug (JObj d) c
               = (Raise TypeError, c)) as Hbody.
  { intros c. unfold patch_node. rewrite Ht, Hid.
    by destruct Hv as [(x & l & ->) | (x & l & ->)]. }
  split; [done|]. by eapply node_raises_aborts.
Qed.

Lemma unhashable_id_aborts_witness :
  (∀ c, patch_node (build_mapping sample_listing) "demo" (JObj sample_bad_id) c
        = (Raise TypeError, c))
  ∧ ∃ e, patch_document (build_mapping sample_listing) "demo"
           (JArr [JObj [("nodes", JArr [JObj sample_other; JObj sample_bad_id])]])
         = Raise e.
Proof.
  apply (unhashable_id_aborts (build_mapping sample_listing) "demo"
           (JArr [JObj [("nodes", JArr [JObj sample_other; JObj sample_bad_id])]])
           0 1 sample_bad_id (JArr [JInt 1]));
    try (vm_compute; reflexivity).
  left. by exists (JInt 1), [].
Defined.

(** X11: a code-type node whose [id] is a number, a boolean or [null] is
    never looked up successfully: it is counted as skipped and left as
    it is, also when the value is true. *)
Theorem scalar_id_skipped mapping workflow_slug d v c :
  dict_get "type" d = Some (JStr "n8n-nodes-base.code") →
  dict_get "id" d = Some v →
  match v with
  | JNull | JBool _ | JInt _ | JFloat _ => True
  | _ => False
  end →
  patch_node mapping workflow_slug (JObj d) c
  = (Ok (JObj d), Counters (total_patched c) (total_skipped c + 1)).
Proof.
  intros Ht%is_code_type_spec Hid%py_get_Some Hv.
  assert (unmapped mapping (py_get "id" d)) as Hun
    by (rewrite Hid; right; by destruct v).
  rewrite (node_step_run _ _ _ _ _ _ c (step_skip _ workflow_slug d Ht Hun)).
  unfold bump. do 2 f_equal. lia.
Qed.

Lemma scalar_id_skipped_witness :
  patch_node (build_mapping sample_listing) "demo" (JObj sample_numeric_id)
    (Counters 3 4)
  = (Ok (JObj sample_numeric_id), Counters 3 (4 + 1)).
Proof.
  apply (scalar_id_skipped (build_mapping sample_listing) "demo"
           sample_numeric_id (JInt 7) (Counters 3 4)); reflexivity || exact I.
Defined.

(** ** The whole program *)

(** Either four arguments, or the usage error. *)
Lemma run_arity w argv :
  (∃ prog wf_path js_dir workflow_slug,
     argv = [prog; wf_path; js_dir; workflow_slug])
  ∨ run w argv = (Raise (SystemExit 1), [EvStderr usage]).
Proof.
  destruct argv as [|a [|b [|c [|d [|? ?]]]]]; try by right.
  left. by exists a, b, c, d.
Qed.




(** X14: when a run completes, the workflow file held a document, and
    exactly one document was written, to the path derived from the slug:
    that document is the one read, changed at most at
    [parameters.jsCode] of code-type nodes. *)
Theorem written_document_framed w prog wf_path js_dir workflow_slug t :
  run w [prog; wf_path; js_dir; workflow_slug] = (Ok tt, t) →
  ∃ data data',
    load w wf_path = Parsed data
    ∧ written t = [(out_path_of workflow_slug, data')]
    ∧ document_frame data data'.
Proof.
  intros (data & data' & c & _ & Hload & Hrun & ->)%run_Ok.
  exists data, data'. split_and!; try done.
  by eapply patch_document_frame.
Qed.

Lemma written_document_framed_witness :
  ∃ data data',
    load (sample_world (Parsed sample_document)) "wf.json" = Parsed data
    ∧ written (run (sample_world (Parsed sample_document)) sample_argv).2
      = [(out_path_of "demo", data')]
    ∧ document_frame data data'.
Proof.
  apply (written_document_framed (sample_world (Parsed sample_document))
           "patch_workflow_use_external_js.py" "wf.json" "js" "demo").
  vm_compute. reflexivity.
Defined.

(** X15: when a run completes, standard output holds two lines: the
    report, whose first number is the number of code-type nodes of the
    document read whose id is mapped and whose second number is the
    number of its other code-type nodes, and the path written. *)
Theorem report_counts w prog wf_path js_dir workflow_slug t :
  run w [prog; wf_path; js_dir; workflow_slug] = (Ok tt, t) →
  let mapping := build_mapping (glob w (os_path_join js_dir "*.js")) in
  ∃ data,
    load w wf_path = Parsed data
    ∧ stdout_of t
      = ["Patched code nodes: " +:+ pretty (count_mapped mapping data)
         +:+ ", skipped: "
         +:+ pretty (count_code_nodes data - count_mapped mapping data);
         "Wrote: " +:+ out_path_of workflow_slug].
Proof.
  intros (data & data' & c & _ & Hload & Hrun & ->)%run_Ok mapping.
  exists data. split; [done|].
  pose proof (patch_document_count _ _ _ _ _ Hrun) as Hsum.
  apply patch_document_Ok in Hrun as [Hrun%patch_workflows_patched _].
  simpl in Hrun.
  assert (total_patched c = count_mapped mapping data) as Hp
    by (unfold count_mapped, mapping; lia).
  assert (total_skipped c = count_code_nodes data - count_mapped mapping data)
    as <- by lia.
  by rewrite <- Hp.
Qed.

Lemma report_counts_witness :
  let mapping := build_mapping (glob (sample_world (Parsed sample_document))
                                  (os_path_join "js" "*.js")) in
  ∃ data,
    load (sample_world (Parsed sample_document)) "wf.json" = Parsed data
    ∧ stdout_of (run (sample_world (Parsed sample_document)) sample_argv).2
      = ["Patched code nodes: " +:+ pretty (count_mapped mapping data)
         +:+ ", skipped: "
         +:+ pretty (count_code_nodes data - count_mapped mapping data);
         "Wrote: " +:+ out_path_of "demo"].
Proof.
  apply (report_counts (sample_world (Parsed sample_document))
           "patch_workflow_use_external_js.py" "wf.json" "js" "demo").
  vm_compute. reflexivity.
Defined.

Lemma out_path_of_cases workflow_slug :
  out_path_of workflow_slug
  = if starts_with_slash workflow_slug
    then workflow_slug +:+ ".raw.externalized.json"
    else "tmp/" +:+ workflow_slug +:+ ".raw.externalized.json".
Proof.
  unfold out_path_of, os_path_join.
  assert (starts_with_slash (workflow_slug +:+ ".raw.externalized.json")
          = starts_with_slash workflow_slug) as -> by by destruct workflow_slug.
  by destruct (starts_with_slash workflow_slug).
Qed.

(** X16: a completed run creates [tmp] and writes one file. The file is
    [tmp/<slug>.raw.externalized.json], unless the slug begins with a
    slash: then [os.path.join] drops [tmp] and the file is
    [<slug>.raw.externalized.json], outside [tmp]. *)
Theorem output_path_cases w prog wf_path js_dir workflow_slug t :
  run w [prog; wf_path; js_dir; workflow_slug] = (Ok tt, t) →
  EvMakedirs "tmp" ∈ t
  ∧ (written t).*1
    = [if starts_with_slash workflow_slug
       then workflow_slug +:+ ".raw.externalized.json"
       else "tmp/" +:+ workflow_slug +:+ ".raw.externalized.json"].
Proof.
  intros (data & data' & c & _ & _ & _ & ->)%run_Ok. split.
  - do 4 right. by left.
  - cbn. by rewrite out_path_of_cases.
Qed.

Lemma output_path_cases_witness :
  EvMakedirs "tmp" ∈ (run (sample_world (Parsed sample_document))
                        ["patch_workflow_use_external_js.py"; "wf.json"; "js";
                         "/srv/demo"]).2
  ∧ (written (run (sample_world (Parsed sample_document))
                ["patch_workflow_use_external_js.py"; "wf.json"; "js";
                 "/srv/demo"]).2).*1
    = [if starts_with_slash "/srv/demo"
       then "/srv/demo" +:+ ".raw.externalized.json"
       else "tmp/" +:+ "/srv/demo" +:+ ".raw.externalized.json"].
Proof.
  apply (output_path_cases (sample_world (Parsed sample_document))
           "patch_workflow_use_external_js.py" "wf.json" "js" "/srv/demo"
           (run (sample_world (Parsed sample_document))
              ["patch_workflow_use_external_js.py"; "wf.json"; "js";
               "/srv/demo"]).2).
  vm_compute. reflexivity.
Defined.

(** X17: the workflow file is opened only after every earlier check has
    passed: four arguments, an existing workflow path, an existing JS
    directory and a non-empty mapping. An earlier error hides a
    malformed or unreadable workflow file. *)
Theorem load_after_checks w argv p :
  EvLoad p ∈ (run w argv).2 →
  ∃ prog js_dir workflow_slug,
    argv = [prog; p; js_dir; workflow_slug]
    ∧ path_exists w p = true
    ∧ path_isdir w js_dir = true
    ∧ build_mapping (glob w (os_path_join js_dir "*.js")) ≠ ∅.
Proof.
  destruct (run_arity w argv) as [(prog & wf_path & js_dir & slug & ->) | ->].
  2:{ cbn. intros H. repeat (apply elem_of_cons in H as [H|H]; [done|]).
      by apply elem_of_nil in H. }
  rewrite run_eq. cbv zeta.
  destruct (path_exists w wf_path) eqn:Hwf; cbn [negb].
  2:{ cbn. intros H. repeat (apply elem_of_cons in H as [H|H]; [done|]).
      by apply elem_of_nil in H. }
  destruct (path_isdir w js_dir) eqn:Hdir; cbn [negb].
  2:{ cbn. intros H. repeat (apply elem_of_cons in H as [H|H]; [done|]).
      by apply elem_of_nil in H. }
  case_bool_decide as Hm.
  { cbn. intros H. repeat (apply elem_of_cons in H as [H|H]; [done|]).
    by apply elem_of_nil in H. }
  intros H. exists prog, js_dir, slug.
  assert (p = wf_path) as ->; [|done].
  destruct (load w wf_path) as [| |data];
    [| |destruct (patch_document _ _ data) as [[data' c]|e];
        [destruct (can_makedirs w "tmp" && can_write w _)|]];
    cbn in H;
    repeat (apply elem_of_cons in H as [H|H]; [by inversion H|]);
    by apply elem_of_nil in H.
Qed.

Lemma load_after_checks_witness :
  ∃ prog js_dir workflow_slug,
    sample_argv = [prog; "wf.json"; js_dir; workflow_slug]
    ∧ path_exists (sample_world Malformed) "wf.json" = true
    ∧ path_isdir (sample_world Malformed) js_dir = true
    ∧ build_mapping (glob (sample_world Malformed) (os_path_join js_dir "*.js")) ≠ ∅.
Proof.
  apply (load_after_checks (sample_world Malformed) sample_argv "wf.json").
  vm_compute. do 3 right. left.
Defined.

(** X18: the code a mapped node held before does not matter: storing
    any value under [parameters.jsCode] first and patching then gives
    what patching gives. *)
Theorem prior_code_overwritten mapping workflow_slug d nid fn p x c :
  dict_get "type" d = Some (JStr "n8n-nodes-base.code") →
  dict_get "id" d = Some (JStr nid) →
  nid ≠ "" → mapping !! nid = Some fn → fn ≠ "" →
  params_of d = Some p →
  patch_node mapping workflow_slug
    (JObj (dict_set "parameters" (JObj (dict_set "jsCode" x p)) d)) c
  = patch_node mapping workflow_slug (JObj d) c.
Proof.
  intros Ht%is_code_type_spec Hid%py_get_Some Hne Hfn Hfne Hp.
  set (d1 := dict_set "parameters" (JObj (dict_set "jsCode" x p)) d).
  rewrite (node_step_run _ _ _ _ _ _ c
             (step_patch mapping workflow_slug d nid fn p Ht Hid Hne Hfn Hfne Hp)).
  assert (node_step mapping workflow_slug (JObj d1)
            (JObj (with_jsCode (wrapper workflow_slug fn)
                     (dict_set "jsCode" x p) d1)) 1 0) as Hstep.
  { apply (step_patch _ _ d1 nid fn).
    - unfold is_code_type, d1 in *. by rewrite py_get_set_ne.
    - unfold d1. by rewrite py_get_set_ne.
    - done.
    - done.
    - done.
    - unfold params_of, d1. by rewrite dict_get_set_eq. }
  rewrite (node_step_run _ _ _ _ _ _ c Hstep).
  unfold with_jsCode, d1. by rewrite !dict_set_set.
Qed.

Lemma prior_code_overwritten_witness :
  patch_node (build_mapping sample_listing) "demo"
    (JObj (dict_set "parameters" (JObj (dict_set "jsCode" (JStr "old") []))
             sample_mapped))
    (Counters 0 0)
  = patch_node (build_mapping sample_listing) "demo" (JObj sample_mapped)
      (Counters 0 0).
Proof.
  apply (prior_code_overwritten (build_mapping sample_listing) "demo"
           sample_mapped sample_id sample_file [] (JStr "old") (Counters 0 0));
    try (vm_compute; reflexivity).
  - discriminate.
  - discriminate.
Defined.

Lemma build_mapping_empty_iff paths :
  build_mapping paths = ∅ ↔
  ∀ p, p ∈ paths → re_search (os_path_basename p) = None.
Proof.
  split; [|apply build_mapping_empty].
  intros Hempty p Hp.
  destruct (re_search (os_path_basename p)) as [u|] eqn:Hu; [|done].
  destruct (build_mapping_is_Some _ _ _ Hp Hu) as [b Hb].
  by rewrite Hempty in Hb.
Qed.

(** X19: once the workflow path and the JS directory exist, the script
    leaves through [die] exactly when no listed file name carries a node
    id; any other failure from there on is an uncaught exception. *)
Theorem dies_iff_no_mapped_file w prog wf_path js_dir workflow_slug :
  path_exists w wf_path = true →
  path_isdir w js_dir = true →
  (run w [prog; wf_path; js_dir; workflow_slug]).1 = Raise (SystemExit 1) ↔
  ∀ p, p ∈ glob w (os_path_join js_dir "*.js") →
       re_search (os_path_basename p) = None.
Proof.
  intros Hwf Hdir. rewrite <- build_mapping_empty_iff, run_eq. cbv zeta.
  rewrite Hwf, Hdir. cbn [negb].
  case_bool_decide as Hm; [done|]. split; [|done].
  destruct (load w wf_path) as [| |data]; [done..|].
  destruct (patch_document _ _ data) as [[data' c]|e] eqn:Hrun.
  - by destruct (can_makedirs w "tmp" && can_write w _).
  - by apply patch_document_Raise in Hrun as [-> | ->].
Qed.

Lemma dies_iff_no_mapped_file_witness :
  (run (sample_world Malformed)
     ["patch_workflow_use_external_js.py"; "wf.json"; "docs"; "demo"]).1
  = Raise (SystemExit 1) ↔
  ∀ p, p ∈ glob (sample_world Malformed) (os_path_join "docs" "*.js") →
       re_search (os_path_basename p) = None.
Proof.
  apply (dies_iff_no_mapped_file (sample_world Malformed)
           "patch_workflow_use_external_js.py" "wf.json" "docs" "demo");
    reflexivity.
Defined.
